(** * Runtime symbol / syscall override engine (internal/override_symbol.c)

    A shallow embedding of the patching engine: byte-addressed kernel
    memory, the page table whose writable bit the engine flips, the
    per-symbol override instance, the syscall-table locator and the
    syscall override registry.

    Conventions.
    - [unsigned long] and pointers are [Z] in [0, 2^64); arithmetic the
      source performs on them is wrapped with [wrap64].
    - Bytes are [Z] in [0, 256); [char] arrays are [list Z].
    - Loops whose trip count is not bounded by the data ([set_mem_rw],
      [set_mem_ro], the locator scan) take a [fuel : nat]; [None] means the
      fuel ran out before the loop left.
    - Logging ([pr_loc_*], [print_syscall_table]) has no effect on the
      state and is left out of the operations; what [print_syscall_table]
      logs is modelled on its own.  The spinlock of [WITH_OVS_LOCK]
      brackets a single sequential store and is left out as well. *)

From Stdlib Require Import String ZArith List Bool Lia.
Import ListNotations.
Local Open Scope Z_scope.

(** ** Machine integers *)

Definition ULONG_MAX : Z := 2 ^ 64 - 1.

Definition wrap64 (x : Z) : Z := x mod 2 ^ 64.

(** [sizeof(void * )] and [sizeof(unsigned long)] on x86-64. *)
Definition PTR_SIZE : Z := 8.

(** ** Error numbers (the kernel's errno values) *)

Definition ENOMEM : Z := 12.
Definition EFAULT : Z := 14.
Definition EINVAL : Z := 22.

(** ** Constants from headers outside this file *)

(** x86-64 kernel headers (asm/page_types.h, asm/pgtable_types.h): 4 KiB
    pages, [PAGE_MASK = ~(PAGE_SIZE - 1)] and the writable bit of a page
    table entry. *)
Definition PAGE_SIZE : Z := 4096.
Definition PAGE_MASK : Z := 2 ^ 64 - PAGE_SIZE.
Definition _PAGE_RW : Z := 2.

(** Modelled from the spec: [OVERRIDE_JUMP_SIZE] is defined in
    override_symbol.h; the template is 12 bytes long (2-byte load opcode,
    8-byte operand, 2-byte jump opcode), which is also the length of the
    initialiser of [jump_tpl] below. *)
Definition OVERRIDE_JUMP_SIZE : nat := 12.

(** asm/unistd_64.h: the four syscall numbers the locator probes. *)
Definition __NR_read : Z := 0.
Definition __NR_write : Z := 1.
Definition __NR_open : Z := 2.
Definition __NR_close : Z := 3.

(** [PAGE_ALIGN(addr)]: round up to the next page boundary, in 64 bits. *)
Definition PAGE_ALIGN (addr : Z) : Z :=
  Z.land (wrap64 (addr + PAGE_SIZE - 1)) PAGE_MASK.

(** [#define PAGE_ALIGN_BOTTOM(addr) (PAGE_ALIGN(addr) - PAGE_SIZE)] *)
Definition PAGE_ALIGN_BOTTOM (addr : Z) : Z :=
  wrap64 (PAGE_ALIGN addr - PAGE_SIZE).

(** [#define NUM_PAGES_BETWEEN(low, high)], the page count the debug line
    of [set_mem_rw] / [set_mem_ro] prints. *)
Definition NUM_PAGES_BETWEEN (low high : Z) : Z :=
  wrap64 (PAGE_ALIGN_BOTTOM high - PAGE_ALIGN_BOTTOM low) / PAGE_SIZE + 1.

(** Rounding down to a page boundary, as the specification words it. *)
Definition align_down (addr : Z) : Z := addr / PAGE_SIZE * PAGE_SIZE.

(** ** Byte sequences *)

(** The [n] low bytes of [v], least significant first (x86-64 stores). *)
Fixpoint le_bytes (n : nat) (v : Z) : list Z :=
  match n with
  | O => []
  | S n' => Z.land v 255 :: le_bytes n' (Z.shiftr v 8)
  end.

(** The integer a little-endian byte sequence denotes. *)
Fixpoint le_value (bs : list Z) : Z :=
  match bs with
  | [] => 0
  | b :: bs' => b + 256 * le_value bs'
  end.

(** Writing one element of a [char] array. *)
Fixpoint array_set (l : list Z) (i : nat) (b : Z) : list Z :=
  match l, i with
  | [], _ => []
  | _ :: t, O => b :: t
  | h :: t, S i' => h :: array_set t i' b
  end.

(** Writing a run of bytes into a [char] array from index [pos] on. *)
Fixpoint array_write (l : list Z) (pos : nat) (bs : list Z) : list Z :=
  match bs with
  | [] => l
  | b :: bs' => array_write (array_set l pos b) (S pos) bs'
  end.

(** ** The jump template *)

Definition JUMP_ADDR_POS : nat := 2.

(** ["\x48\xb8" <8 zero bytes> "\xff\xe0"]: MOVQ imm64, %rax; JMP *%rax. *)
Definition jump_tpl : list Z :=
  [0x48; 0xb8; 0; 0; 0; 0; 0; 0; 0; 0; 0xff; 0xe0].

(** The two statements that open [prepare_trampoline] (and the same two in
    [override_symbol]): [memcpy(trampoline, jump_tpl, OVERRIDE_JUMP_SIZE)]
    followed by [*(long * )&trampoline[JUMP_ADDR_POS] = (long)target]. *)
Definition build_jump (target : Z) : list Z :=
  let trampoline := firstn OVERRIDE_JUMP_SIZE jump_tpl in
  array_write trampoline JUMP_ADDR_POS (le_bytes 8 target).

(** ** Kernel memory *)

Definition memory := Z -> Z.

Definition upd (f : Z -> Z) (k v : Z) : Z -> Z :=
  fun x => if x =? k then v else f x.

Fixpoint load_bytes (m : memory) (a : Z) (n : nat) : list Z :=
  match n with
  | O => []
  | S n' => m a :: load_bytes m (a + 1) n'
  end.

Fixpoint store_bytes (m : memory) (a : Z) (bs : list Z) : memory :=
  match bs with
  | [] => m
  | b :: bs' => store_bytes (upd m a b) (a + 1) bs'
  end.

(** Reading and writing one [unsigned long]. *)
Definition load64 (m : memory) (a : Z) : Z := le_value (load_bytes m a 8).
Definition store64 (m : memory) (a v : Z) : memory :=
  store_bytes m a (le_bytes 8 v).

(** ** Page table

    One entry per 4 KiB virtual page, keyed by the page number;
    [lookup_address] finds the entry of the page an address lies in. *)

Definition pagetable := Z -> Z.

Definition lookup_address (addr : Z) : Z := addr / PAGE_SIZE.

Definition pte_writable (pte : Z) : bool := Z.testbit pte 1.

(** Is the page holding [addr] writable? *)
Definition page_writable (pt : pagetable) (addr : Z) : bool :=
  pte_writable (pt (lookup_address addr)).

(** ** The kernel the module is loaded into

    [kallsyms_lookup_name] returns 0 for an unknown name.
    [__NR_syscall_max] is the highest valid syscall number of the running
    kernel (asm-offsets.h), and [NR_syscalls], the length of the dispatch
    table and of the registry array, is one more. *)
Record kernel := {
  kallsyms_lookup_name : string -> Z;
  __NR_syscall_max : Z
}.

Definition NR_syscalls (k : kernel) : Z := __NR_syscall_max k + 1.

(** ** Mutable state

    [mem] and [pgtable] are the machine; [syscall_table_ptr] and
    [overridden_syscall] are the two file-scope statics.  [stores] is a
    ghost log of every store into [mem] (destination, length), newest
    first, and [tlb_flushes] counts [_flush_tlb_all()] calls. *)
Record kstate := {
  mem : memory;
  pgtable : pagetable;
  syscall_table_ptr : Z;
  overridden_syscall : Z -> Z;
  stores : list (Z * nat);
  tlb_flushes : nat
}.

Definition set_mem (st : kstate) (m : memory) (ev : Z * nat) : kstate :=
  {| mem := m; pgtable := pgtable st;
     syscall_table_ptr := syscall_table_ptr st;
     overridden_syscall := overridden_syscall st;
     stores := ev :: stores st; tlb_flushes := tlb_flushes st |}.

Definition set_pgtable (st : kstate) (pt : pagetable) : kstate :=
  {| mem := mem st; pgtable := pt;
     syscall_table_ptr := syscall_table_ptr st;
     overridden_syscall := overridden_syscall st;
     stores := stores st; tlb_flushes := S (tlb_flushes st) |}.

Definition set_syscall_table_ptr (st : kstate) (p : Z) : kstate :=
  {| mem := mem st; pgtable := pgtable st;
     syscall_table_ptr := p;
     overridden_syscall := overridden_syscall st;
     stores := stores st; tlb_flushes := tlb_flushes st |}.

Definition set_overridden_syscall (st : kstate) (r : Z -> Z) : kstate :=
  {| mem := mem st; pgtable := pgtable st;
     syscall_table_ptr := syscall_table_ptr st;
     overridden_syscall := r;
     stores := stores st; tlb_flushes := tlb_flushes st |}.

(** [memcpy(dst, src, n)] with [dst] in kernel memory. *)
Definition memcpy_to (st : kstate) (dst : Z) (src : list Z) : kstate :=
  set_mem st (store_bytes (mem st) dst src) (dst, length src).

(** ** Memory protection controller *)

(** The loop shared by [set_mem_rw] and [set_mem_ro]:
    [for (; addr <= vaddr; addr += PAGE_SIZE) { pte = lookup_address(addr); pte->pte = op(pte->pte); }] *)
Fixpoint pte_loop (op : Z -> Z) (fuel : nat) (vaddr addr : Z) (pt : pagetable)
  : option pagetable :=
  match fuel with
  | O => None
  | S fuel' =>
      if addr <=? vaddr then
        let pte := lookup_address addr in
        pte_loop op fuel' vaddr (wrap64 (addr + PAGE_SIZE)) (upd pt pte (op (pt pte)))
      else Some pt
  end.

(** [pte->pte |= _PAGE_RW] *)
Definition pte_set_rw (pte : Z) : Z := Z.lor pte _PAGE_RW.

(** [pte->pte &= ~_PAGE_RW] *)
Definition pte_clear_rw (pte : Z) : Z := Z.land pte (Z.lnot _PAGE_RW).

(** [len] only reaches the debug line; the loop bound is [vaddr]. *)
Definition set_mem_rw (fuel : nat) (vaddr len : Z) (st : kstate) : option kstate :=
  let addr := PAGE_ALIGN_BOTTOM vaddr in
  match pte_loop pte_set_rw fuel vaddr addr (pgtable st) with
  | Some pt => Some (set_pgtable st pt)
  | None => None
  end.

Definition set_mem_ro (fuel : nat) (vaddr len : Z) (st : kstate) : option kstate :=
  let addr := PAGE_ALIGN_BOTTOM vaddr in
  match pte_loop pte_clear_rw fuel vaddr addr (pgtable st) with
  | Some pt => Some (set_pgtable st pt)
  | None => None
  end.

(** What a function that may fail with a negative errno hands back. *)
Inductive result (A : Type) : Type :=
| Ok : A -> result A
| Err : Z -> result A.
Arguments Ok {A} _.
Arguments Err {A} _.

(** ** The one-shot interface: [override_symbol] / [restore_symbol]

    The two out-parameters of [override_symbol], the symbol's address and
    the backup of its first bytes, are returned on success. *)
Definition override_symbol (k : kernel) (fuel : nat) (symbol_name : string)
    (new_ptr : Z) (st : kstate) : option (result (Z * list Z) * kstate) :=
  let org := kallsyms_lookup_name k symbol_name in
  if org =? 0 then Some (Err (- EFAULT), st)
  else
    let jump := build_jump new_ptr in
    let org_code := load_bytes (mem st) org OVERRIDE_JUMP_SIZE in
    match set_mem_rw fuel org (Z.of_nat OVERRIDE_JUMP_SIZE) st with
    | None => None
    | Some st1 =>
        let st2 := memcpy_to st1 org (firstn OVERRIDE_JUMP_SIZE jump) in
        match set_mem_ro fuel org (Z.of_nat OVERRIDE_JUMP_SIZE) st2 with
        | None => None
        | Some st3 => Some (Ok (org, org_code), st3)
        end
    end.

Definition restore_symbol (fuel : nat) (org : Z) (org_code : list Z)
    (st : kstate) : option (Z * kstate) :=
  match set_mem_rw fuel org (Z.of_nat OVERRIDE_JUMP_SIZE) st with
  | None => None
  | Some st1 =>
      let st2 := memcpy_to st1 org (firstn OVERRIDE_JUMP_SIZE org_code) in
      match set_mem_ro fuel org (Z.of_nat OVERRIDE_JUMP_SIZE) st2 with
      | None => None
      | Some st3 => Some (0, st3)
      end
  end.

(** ** Override instance *)

Record override_symbol_inst := {
  org_sym_ptr : Z;
  new_sym_ptr : Z;
  org_sym_code : list Z;
  trampoline : list Z;
  installed : bool;
  has_trampoline : bool;
  mem_protected : bool;
  name : string
}.

Definition with_mem_protected (sym : override_symbol_inst) (b : bool) :=
  {| org_sym_ptr := org_sym_ptr sym; new_sym_ptr := new_sym_ptr sym;
     org_sym_code := org_sym_code sym; trampoline := trampoline sym;
     installed := installed sym; has_trampoline := has_trampoline sym;
     mem_protected := b; name := name sym |}.

Definition with_installed (sym : override_symbol_inst) (b : bool) :=
  {| org_sym_ptr := org_sym_ptr sym; new_sym_ptr := new_sym_ptr sym;
     org_sym_code := org_sym_code sym; trampoline := trampoline sym;
     installed := b; has_trampoline := has_trampoline sym;
     mem_protected := mem_protected sym; name := name sym |}.

(** [get_ov_symbol_instance]: [alloc_ok] tells whether [kmalloc]
    succeeded.  The two code arrays of a fresh instance are uninitialised
    in C; they are zero-filled here and never read before being written. *)
Definition get_ov_symbol_instance (k : kernel) (alloc_ok : bool)
    (symbol_name : string) (new_ptr : Z) : result override_symbol_inst :=
  if negb alloc_ok then Err (- ENOMEM)
  else
    let org := kallsyms_lookup_name k symbol_name in
    if org =? 0 then Err (- EFAULT)
    else Ok {| org_sym_ptr := org; new_sym_ptr := new_ptr;
               org_sym_code := repeat 0 OVERRIDE_JUMP_SIZE;
               trampoline := repeat 0 OVERRIDE_JUMP_SIZE;
               installed := false; has_trampoline := false;
               mem_protected := true; name := symbol_name |}.

(** As written in the source, this calls [set_mem_rw]. *)
Definition enable_mem_protection (fuel : nat) (sym : override_symbol_inst)
    (st : kstate) : option (override_symbol_inst * kstate) :=
  match set_mem_rw fuel (org_sym_ptr sym) (Z.of_nat OVERRIDE_JUMP_SIZE) st with
  | Some st' => Some (with_mem_protected sym true, st')
  | None => None
  end.

Definition disable_mem_protection (fuel : nat) (sym : override_symbol_inst)
    (st : kstate) : option (override_symbol_inst * kstate) :=
  match set_mem_rw fuel (org_sym_ptr sym) (Z.of_nat OVERRIDE_JUMP_SIZE) st with
  | Some st' => Some (with_mem_protected sym false, st')
  | None => None
  end.

Definition prepare_trampoline (sym : override_symbol_inst) (st : kstate)
  : override_symbol_inst :=
  {| org_sym_ptr := org_sym_ptr sym; new_sym_ptr := new_sym_ptr sym;
     org_sym_code := load_bytes (mem st) (org_sym_ptr sym) OVERRIDE_JUMP_SIZE;
     trampoline := build_jump (new_sym_ptr sym);
     installed := installed sym; has_trampoline := true;
     mem_protected := mem_protected sym; name := name sym |}.

(** [if (sym->mem_protected) disable_mem_protection(sym);] *)
Definition unprotect_if_needed (fuel : nat) (sym : override_symbol_inst)
    (st : kstate) : option (override_symbol_inst * kstate) :=
  if mem_protected sym then disable_mem_protection fuel sym st
  else Some (sym, st).

Definition __enable_symbol_override (fuel : nat) (sym : override_symbol_inst)
    (st : kstate) : option (Z * override_symbol_inst * kstate) :=
  if installed sym then Some (0, sym, st)
  else
    let sym1 := if has_trampoline sym then sym else prepare_trampoline sym st in
    match unprotect_if_needed fuel sym1 st with
    | None => None
    | Some (sym2, st2) =>
        let st3 := memcpy_to st2 (org_sym_ptr sym2)
                     (firstn OVERRIDE_JUMP_SIZE (trampoline sym2)) in
        Some (0, with_installed sym2 true, st3)
    end.

Definition __disable_symbol_override (fuel : nat) (sym : override_symbol_inst)
    (st : kstate) : option (Z * override_symbol_inst * kstate) :=
  if negb (installed sym) then Some (0, sym, st)
  else
    match unprotect_if_needed fuel sym st with
    | None => None
    | Some (sym2, st2) =>
        let st3 := memcpy_to st2 (org_sym_ptr sym2)
                     (firstn OVERRIDE_JUMP_SIZE (org_sym_code sym2)) in
        Some (0, with_installed sym2 false, st3)
    end.

Definition __get_org_ptr (sym : override_symbol_inst) : Z := org_sym_ptr sym.

(** A handle is a pointer; [None] is the null pointer. *)
Definition symbol_is_overridden (sym : option override_symbol_inst) : bool :=
  match sym with
  | None => false
  | Some s => true && installed s
  end.

(** [override_symbol_ng]: create, enable, then [enable_mem_protection].
    [__enable_symbol_override] only ever returns 0, so the [error_out]
    branch is kept for shape alone. *)
Definition override_symbol_ng (k : kernel) (alloc_ok : bool) (fuel : nat)
    (symbol_name : string) (new_ptr : Z) (st : kstate)
  : option (result override_symbol_inst * kstate) :=
  match get_ov_symbol_instance k alloc_ok symbol_name new_ptr with
  | Err e => Some (Err e, st)
  | Ok sym =>
      match __enable_symbol_override fuel sym st with
      | None => None
      | Some (out, sym1, st1) =>
          if negb (out =? 0) then Some (Err out, st1)
          else
            match enable_mem_protection fuel sym1 st1 with
            | None => None
            | Some (sym2, st2) => Some (Ok sym2, st2)
            end
      end
  end.

(** [restore_symbol_ng]: disable, [enable_mem_protection], free.  The
    instance is released on return, so only the status and the state are
    handed back. *)
Definition restore_symbol_ng (fuel : nat) (sym : override_symbol_inst)
    (st : kstate) : option (Z * kstate) :=
  match __disable_symbol_override fuel sym st with
  | None => None
  | Some (out, sym1, st1) =>
      if negb (out =? 0) then Some (out, st1)
      else
        match enable_mem_protection fuel sym1 st1 with
        | None => None
        | Some (_, st2) => Some (out, st2)
        end
  end.

(** ** Syscall table locator *)

(** [&table[n]] for a table of [unsigned long] at [table]. *)
Definition slot_addr (table n : Z) : Z := wrap64 (table + PTR_SIZE * n).

(** The four-way test in the body of the scan, with [syscall_table_ptr]
    set to the candidate [i]. *)
Definition table_matches (m : memory) (i sys_close_ptr sys_open_ptr
    sys_read_ptr sys_write_ptr : Z) : bool :=
  (load64 m (slot_addr i __NR_close) =? sys_close_ptr) &&
  (load64 m (slot_addr i __NR_open) =? sys_open_ptr) &&
  (load64 m (slot_addr i __NR_read) =? sys_read_ptr) &&
  (load64 m (slot_addr i __NR_write) =? sys_write_ptr).

(** [for (; i < ULONG_MAX; i += sizeof(void * )) { ... }].
    [Some (Some p)]: the body returned with the table at [p];
    [Some None]: the loop condition failed; [None]: out of fuel. *)
Fixpoint scan_loop (fuel : nat) (m : memory) (c o r w : Z) (i : Z)
  : option (option Z) :=
  match fuel with
  | O => None
  | S fuel' =>
      if i <? ULONG_MAX then
        if table_matches m i c o r w then Some (Some i)
        else scan_loop fuel' m c o r w (wrap64 (i + PTR_SIZE))
      else Some None
  end.

(** The lowest of the four handler addresses, computed as the source
    does. *)
Definition scan_start (c o r w : Z) : Z :=
  let i := c in
  let i := if o <? i then o else i in
  let i := if r <? i then r else i in
  let i := if w <? i then w else i in
  i.

Definition find_sys_call_table (k : kernel) (fuel : nat) (st : kstate)
  : option (Z * kstate) :=
  let p := kallsyms_lookup_name k "sys_call_table" in
  let st1 := set_syscall_table_ptr st p in
  if negb (p =? 0) then Some (0, st1)
  else
    let sys_close_ptr := kallsyms_lookup_name k "sys_close" in
    let sys_open_ptr := kallsyms_lookup_name k "sys_open" in
    let sys_read_ptr := kallsyms_lookup_name k "sys_read" in
    let sys_write_ptr := kallsyms_lookup_name k "sys_write" in
    if (sys_close_ptr =? 0) || (sys_open_ptr =? 0) ||
       (sys_read_ptr =? 0) || (sys_write_ptr =? 0)
    then Some (- EFAULT, st1)
    else
      let i := scan_start sys_close_ptr sys_open_ptr sys_read_ptr sys_write_ptr in
      match scan_loop fuel (mem st1) sys_close_ptr sys_open_ptr
              sys_read_ptr sys_write_ptr i with
      | None => None
      | Some (Some tbl) => Some (0, set_syscall_table_ptr st1 tbl)
      | Some None => Some (- EFAULT, set_syscall_table_ptr st1 0)
      end.

(** ** Syscall override registry *)

(** [syscall_table_ptr[syscall_num] = v;] *)
Definition write_slot (st : kstate) (n v : Z) : kstate :=
  let a := slot_addr (syscall_table_ptr st) n in
  set_mem st (store64 (mem st) a v) (a, 8%nat).

(** [syscall_table_ptr[syscall_num]] *)
Definition read_slot (st : kstate) (n : Z) : Z :=
  load64 (mem st) (slot_addr (syscall_table_ptr st) n).

(** [org_sysc_ptr] is an out-parameter: [None] is a null pointer, [Some v]
    a cell holding [v]; the cell after the call is part of the result. *)
Definition override_syscall (k : kernel) (fuel : nat) (syscall_num : Z)
    (new_sysc_ptr : Z) (org_sysc_ptr : option Z) (st : kstate)
  : option (Z * option Z * kstate) :=
  let located :=
    if syscall_table_ptr st =? 0 then find_sys_call_table k fuel st
    else Some (0, st) in
  match located with
  | None => None
  | Some (out, st1) =>
      if negb (out =? 0) then Some (out, org_sysc_ptr, st1)
      else if __NR_syscall_max k <? syscall_num then
        Some (- EINVAL, org_sysc_ptr, st1)
      else
        let st2 :=
          if negb (overridden_syscall st1 syscall_num =? 0) then st1
          else set_overridden_syscall st1
                 (upd (overridden_syscall st1) syscall_num
                      (read_slot st1 syscall_num)) in
        let cell :=
          match org_sysc_ptr with
          | None => None
          | Some _ => Some (overridden_syscall st2 syscall_num)
          end in
        let a := slot_addr (syscall_table_ptr st2) syscall_num in
        match set_mem_rw fuel a PTR_SIZE st2 with
        | None => None
        | Some st3 =>
            let st4 := write_slot st3 syscall_num new_sysc_ptr in
            match set_mem_ro fuel a PTR_SIZE st4 with
            | None => None
            | Some st5 => Some (out, cell, st5)
            end
        end
  end.

(** As written in the source, both protection calls are [set_mem_rw]. *)
Definition restore_syscall (k : kernel) (fuel : nat) (syscall_num : Z)
    (st : kstate) : option (Z * kstate) :=
  if syscall_table_ptr st =? 0 then Some (- EFAULT, st)
  else if __NR_syscall_max k <? syscall_num then Some (- EINVAL, st)
  else if overridden_syscall st syscall_num =? 0 then Some (- EINVAL, st)
  else
    let a := slot_addr (syscall_table_ptr st) syscall_num in
    match set_mem_rw fuel a PTR_SIZE st with
    | None => None
    | Some st1 =>
        let st2 := write_slot st1 syscall_num (overridden_syscall st1 syscall_num) in
        match set_mem_rw fuel a PTR_SIZE st2 with
        | None => None
        | Some st3 => Some (0, st3)
        end
    end.

(** ** Definitions used to state the properties *)

(** The page-table entries one run of the protection loop rewrites for
    [vaddr]: the page [vaddr] lies in and, when [vaddr] is itself a page
    boundary, the page before it. *)
Definition pages_touched (vaddr : Z) : list Z :=
  if vaddr mod PAGE_SIZE =? 0
  then [vaddr / PAGE_SIZE - 1; vaddr / PAGE_SIZE]
  else [vaddr / PAGE_SIZE].

Definition touch (op : Z -> Z) (vaddr : Z) (pt : pagetable) : pagetable :=
  fold_left (fun t p => upd t p (op (t p))) (pages_touched vaddr) pt.

(** Addresses the engine is meant for: non-null and below the last page of
    the address space.  (From the last page on, the protection loop's
    [addr += PAGE_SIZE] wraps and the loop never leaves.) *)
Definition patchable (a : Z) : Prop := 0 < a < 2 ^ 64 - PAGE_SIZE.

(** A non-null 64-bit pointer value. *)
Definition kernel_pointer (v : Z) : Prop := 0 < v < 2 ^ 64.

(** The frames the specification has [make_writable] / [make_read_only]
    cover: every page boundary from [align_down address] up to
    [align_down (address + length)], both included. *)
Definition spec_frames (address length : Z) : list Z :=
  let first := align_down address in
  let last := align_down (address + length) in
  map (fun i => first + PAGE_SIZE * Z.of_nat i)
      (seq 0 (Z.to_nat ((last - first) / PAGE_SIZE + 1))).

(** A 64-bit kernel in which [sys_call_table] is exported. *)
Definition demo_kernel : kernel :=
  {| kallsyms_lookup_name := fun s =>
       if String.eqb s "sys_call_table" then 0xffffffff81e00200
       else if String.eqb s "printk" then 0xffffffff810a1b40
       else if String.eqb s "ata_port_probe" then 0xffffffff81400ff8
       else 0;
     __NR_syscall_max := 312 |}.

(** A kernel that exports only the four probe handlers. *)
Definition scan_kernel : kernel :=
  {| kallsyms_lookup_name := fun s =>
       if String.eqb s "sys_close" then 0xffffffff810c18b0
       else if String.eqb s "sys_open" then 0xffffffff810c37a0
       else if String.eqb s "sys_read" then 0xffffffff810c7a80
       else if String.eqb s "sys_write" then 0xffffffff810c7ba0
       else 0;
     __NR_syscall_max := 312 |}.

(** A kernel that exports nothing the locator asks for. *)
Definition bare_kernel : kernel :=
  {| kallsyms_lookup_name := fun _ => 0; __NR_syscall_max := 312 |}.

(** Memory holding [v] as an [unsigned long] at [a] and zero elsewhere. *)
Definition mem_with_word (a v : Z) : memory := store64 (fun _ => 0) a v.

(** Every page present and read-only, nothing located, nothing
    overridden; the dispatch slot of syscall 5 holds [0xffffffff810d0000]. *)
Definition boot_state : kstate :=
  {| mem := mem_with_word (0xffffffff81e00200 + 8 * 5) 0xffffffff810d0000;
     pgtable := fun _ => 1;
     syscall_table_ptr := 0;
     overridden_syscall := fun _ => 0;
     stores := [];
     tlb_flushes := 0 |}.

(** [boot_state] once the table base is cached. *)
Definition located_state : kstate :=
  set_syscall_table_ptr boot_state 0xffffffff81e00200.

(** The same, but with an all-zero dispatch table. *)
Definition null_table_state : kstate :=
  {| mem := fun _ => 0;
     pgtable := fun _ => 1;
     syscall_table_ptr := 0xffffffff81e00200;
     overridden_syscall := fun _ => 0;
     stores := [];
     tlb_flushes := 0 |}.

(** The two code arrays of an instance have their declared size. *)
Definition inst_wf (sym : override_symbol_inst) : Prop :=
  length (org_sym_code sym) = OVERRIDE_JUMP_SIZE /\
  length (trampoline sym) = OVERRIDE_JUMP_SIZE.

(** The registry after the capture step of [override_syscall]. *)
Definition record_original (st : kstate) (n : Z) : kstate :=
  if negb (overridden_syscall st n =? 0) then st
  else set_overridden_syscall st
         (upd (overridden_syscall st) n (read_slot st n)).

(** The state a successful [override_syscall] leaves, in closed form. *)
Definition after_override (st : kstate) (n p : Z) : kstate :=
  let a := slot_addr (syscall_table_ptr st) n in
  let st2 := record_original st n in
  let st3 := set_pgtable st2 (touch pte_set_rw a (pgtable st2)) in
  let st4 := write_slot st3 n p in
  set_pgtable st4 (touch pte_clear_rw a (pgtable st4)).

(** The state a successful [restore_syscall] leaves, in closed form. *)
Definition after_restore (st : kstate) (n : Z) : kstate :=
  let a := slot_addr (syscall_table_ptr st) n in
  let st1 := set_pgtable st (touch pte_set_rw a (pgtable st)) in
  let st2 := write_slot st1 n (overridden_syscall st1 n) in
  set_pgtable st2 (touch pte_set_rw a (pgtable st2)).

(** The state component of a run, or [d] if the run did not finish. *)
Definition state_after {A : Type} (r : option (A * kstate)) (d : kstate) : kstate :=
  match r with
  | Some (_, s) => s
  | None => d
  end.

(** [located_state] after syscall 5 was overridden once. *)
Definition overridden_once_state : kstate :=
  state_after
    (override_syscall demo_kernel 3 5 0xffffffffa0002000 None located_state)
    located_state.

(** Nothing in memory, nothing located. *)
Definition blank_state : kstate :=
  {| mem := fun _ => 0;
     pgtable := fun _ => 1;
     syscall_table_ptr := 0;
     overridden_syscall := fun _ => 0;
     stores := [];
     tlb_flushes := 0 |}.

(** C6 as the claim words it: the call succeeds and hands back the pointer
    that was in the dispatch slot just before it. *)
Definition override_returns_previous (k : kernel) (fuel : nat) (n p : Z)
    (st : kstate) : Prop :=
  exists st',
    override_syscall k fuel n p (Some 0) st = Some (0, Some (read_slot st n), st').

(** C7 as the claim words it: both entry points answer [-EINVAL] and
    leave memory and the registry as they were. *)
Definition rejects_out_of_range (k : kernel) (fuel : nat) (n p : Z)
    (st : kstate) : Prop :=
  (exists st', override_syscall k fuel n p None st = Some (- EINVAL, None, st') /\
               mem st' = mem st /\
               overridden_syscall st' = overridden_syscall st) /\
  (exists st', restore_syscall k fuel n st = Some (- EINVAL, st') /\
               mem st' = mem st /\
               overridden_syscall st' = overridden_syscall st).

(** The instance [get_ov_symbol_instance] builds for [printk] on the demo
    kernel, with a replacement in module space. *)
Definition demo_inst : override_symbol_inst :=
  {| org_sym_ptr := 0xffffffff810a1b40; new_sym_ptr := 0xffffffffa0001000;
     org_sym_code := repeat 0 OVERRIDE_JUMP_SIZE;
     trampoline := repeat 0 OVERRIDE_JUMP_SIZE;
     installed := false; has_trampoline := false;
     mem_protected := true; name := "printk" |}.

(** The instance for [ata_port_probe], whose first 12 bytes run over a
    page boundary. *)
Definition straddling_inst : override_symbol_inst :=
  {| org_sym_ptr := 0xffffffff81400ff8; new_sym_ptr := 0xffffffffa0001000;
     org_sym_code := repeat 0 OVERRIDE_JUMP_SIZE;
     trampoline := repeat 0 OVERRIDE_JUMP_SIZE;
     installed := false; has_trampoline := false;
     mem_protected := true; name := "ata_port_probe" |}.

(** ** The debug dump of the dispatch table *)

Definition wrap32 (x : Z) : Z := x mod 2 ^ 32.

(** [print_syscall_table(from, to)]: what it logs, as the list of
    (number, slot content) lines, in order.  Both arguments are
    [unsigned int]; nothing is logged without a table base or for a window
    that fails the sanity test. *)
Definition print_syscall_table (k : kernel) (st : kstate) (from to : Z)
  : list (Z * Z) :=
  if syscall_table_ptr st =? 0 then []
  else if (from <? 0) || (__NR_syscall_max k <? to) || (to <? from) then []
  else map (fun i => (i, read_slot st i))
           (map (fun d => from + Z.of_nat d) (seq 0 (Z.to_nat (to - from)))).

(** The call made by [override_syscall] and [restore_syscall], before and
    after they write: [print_syscall_table(syscall_num-5, syscall_num+5)],
    the window being computed in [unsigned int]. *)
Definition dump_around (k : kernel) (st : kstate) (syscall_num : Z)
  : list (Z * Z) :=
  print_syscall_table k st (wrap32 (syscall_num - 5)) (wrap32 (syscall_num + 5)).

(** ** More definitions used to state properties *)

(** What every instance built by [get_ov_symbol_instance] and then only
    enabled and disabled satisfies: code arrays of the declared size, and
    installed only with a prepared trampoline. *)
Definition inst_ok (sym : override_symbol_inst) : Prop :=
  inst_wf sym /\ (installed sym = true -> has_trampoline sym = true).

(** A synthetic machine for the locator: no exported table, and a
    dispatch table three strides above the lowest probe handler. *)
Definition scan_table_base : Z := 0xffffffff810c18b0 + 8 * 3.

Definition scan_memory : memory :=
  store64
    (store64
       (store64
          (store64 (fun _ => 0)
             (scan_table_base + 8 * __NR_read) 0xffffffff810c7a80)
          (scan_table_base + 8 * __NR_write) 0xffffffff810c7ba0)
       (scan_table_base + 8 * __NR_open) 0xffffffff810c37a0)
    (scan_table_base + 8 * __NR_close) 0xffffffff810c18b0.

Definition scan_state : kstate :=
  {| mem := scan_memory;
     pgtable := fun _ => 1;
     syscall_table_ptr := 0;
     overridden_syscall := fun _ => 0;
     stores := [];
     tlb_flushes := 0 |}.

(** A kernel whose lowest probe handler sits at an address that is 7
    modulo 8. *)
Definition odd_kernel : kernel :=
  {| kallsyms_lookup_name := fun s =>
       if String.eqb s "sys_close" then 0xffffffffffffffe7
       else if String.eqb s "sys_open" then 0xffffffffffffffef
       else if String.eqb s "sys_read" then 0xfffffffffffffff0
       else if String.eqb s "sys_write" then 0xfffffffffffffff8
       else 0;
     __NR_syscall_max := 312 |}.

(** An instance for a symbol in the last page of the address space. *)
Definition last_page_inst : override_symbol_inst :=
  {| org_sym_ptr := 0xfffffffffffff000; new_sym_ptr := 0xffffffffa0001000;
     org_sym_code := repeat 0 OVERRIDE_JUMP_SIZE;
     trampoline := repeat 0 OVERRIDE_JUMP_SIZE;
     installed := false; has_trampoline := false;
     mem_protected := true; name := "last_page_symbol" |}.

(** * Proofs *)

(** ** Bytes and memory *)

Lemma le_bytes_length (n : nat) (v : Z) : length (le_bytes n v) = n.
Proof.
  revert v; induction n as [|n IH]; intros v; simpl; [reflexivity|].
  now rewrite IH.
Qed.

Lemma le_value_le_bytes (n : nat) (v : Z) :
  le_value (le_bytes n v) = v mod 2 ^ (8 * Z.of_nat n).
Proof.
  revert v; induction n as [|n IH]; intros v.
  - simpl. now rewrite Z.mod_1_r.
  - cbn [le_bytes le_value]. rewrite IH.
    change 255 with (Z.ones 8). rewrite Z.land_ones by lia.
    rewrite Z.shiftr_div_pow2 by lia.
    replace (8 * Z.of_nat (S n)) with (8 + 8 * Z.of_nat n) by lia.
    rewrite Z.pow_add_r by lia.
    change (2 ^ 8) with 256.
    rewrite (Z.rem_mul_r v 256 (2 ^ (8 * Z.of_nat n))) by lia.
    reflexivity.
Qed.

Lemma upd_same (f : Z -> Z) (k v : Z) : upd f k v k = v.
Proof. unfold upd. now rewrite Z.eqb_refl. Qed.

Lemma upd_other (f : Z -> Z) (k v x : Z) : x <> k -> upd f k v x = f x.
Proof. intros H. unfold upd. destruct (Z.eqb_spec x k); congruence. Qed.

Lemma store_bytes_outside (bs : list Z) (m : memory) (a x : Z) :
  x < a \/ a + Z.of_nat (length bs) <= x -> store_bytes m a bs x = m x.
Proof.
  revert m a; induction bs as [|b bs IH]; intros m a H; simpl; [reflexivity|].
  rewrite IH by (simpl length in H; lia).
  apply upd_other. simpl length in H. lia.
Qed.

Lemma load_bytes_ext (n : nat) (m m' : memory) (a : Z) :
  (forall x, a <= x < a + Z.of_nat n -> m x = m' x) ->
  load_bytes m a n = load_bytes m' a n.
Proof.
  revert a; induction n as [|n IH]; intros a H; simpl; [reflexivity|].
  f_equal.
  - apply H. lia.
  - apply IH. intros x Hx. apply H. lia.
Qed.

Lemma load_store_same (bs : list Z) (m : memory) (a : Z) :
  load_bytes (store_bytes m a bs) a (length bs) = bs.
Proof.
  revert m a; induction bs as [|b bs IH]; intros m a; simpl; [reflexivity|].
  f_equal.
  - rewrite store_bytes_outside by lia. apply upd_same.
  - apply IH.
Qed.

Lemma load_bytes_length (n : nat) (m : memory) (a : Z) :
  length (load_bytes m a n) = n.
Proof.
  revert a; induction n as [|n IH]; intros a; simpl; [reflexivity|].
  now rewrite IH.
Qed.

(** Storing back what was loaded changes no byte. *)
Lemma store_loaded (n : nat) (m m0 : memory) (a : Z) :
  (forall x, x < a \/ a + Z.of_nat n <= x -> m x = m0 x) ->
  forall x, store_bytes m a (load_bytes m0 a n) x = m0 x.
Proof.
  revert m a; induction n as [|n IH]; intros m a H x; simpl.
  - apply H. lia.
  - apply IH. intros y Hy. unfold upd.
    destruct (Z.eqb_spec y a) as [->|Hne]; [reflexivity|].
    apply H. lia.
Qed.

Lemma load64_store64_same (m : memory) (a v : Z) :
  load64 (store64 m a v) a = v mod 2 ^ 64.
Proof.
  unfold load64, store64.
  replace 8%nat with (length (le_bytes 8 v)) at 2 by apply le_bytes_length.
  rewrite load_store_same. apply le_value_le_bytes.
Qed.

Lemma load64_store64_other (m : memory) (a a' v : Z) :
  a' + 8 <= a \/ a + 8 <= a' ->
  load64 (store64 m a v) a' = load64 m a'.
Proof.
  intros H. unfold load64, store64. f_equal.
  apply load_bytes_ext. intros x Hx.
  apply store_bytes_outside. rewrite le_bytes_length. lia.
Qed.

(** ** Trampoline generator *)

(** C8.  [build_jump] has no state argument, so its output is a function of
    the target alone.  For every target the output is 12 bytes long and is
    the template with the eight little-endian bytes of the target at
    offsets 2..9: the two opcode bytes in front and the two behind are the
    template's, and reading the operand back gives the target (as a 64-bit
    value), whatever its high bit. *)
Theorem build_jump_is_template_with_target (target : Z) :
  length (build_jump target) = OVERRIDE_JUMP_SIZE /\
  build_jump target =
    firstn JUMP_ADDR_POS jump_tpl ++ le_bytes 8 target ++
    skipn (JUMP_ADDR_POS + 8) jump_tpl /\
  build_jump target = [0x48; 0xb8] ++ le_bytes 8 target ++ [0xff; 0xe0] /\
  le_value (firstn 8 (skipn JUMP_ADDR_POS (build_jump target))) = wrap64 target.
Proof.
  assert (E : build_jump target =
              [0x48; 0xb8] ++ le_bytes 8 target ++ [0xff; 0xe0])
    by reflexivity.
  split; [|split; [|split]].
  - rewrite E. rewrite !length_app, le_bytes_length. reflexivity.
  - exact E.
  - exact E.
  - change (firstn 8 (skipn JUMP_ADDR_POS (build_jump target)))
      with (le_bytes 8 target).
    rewrite le_value_le_bytes. reflexivity.
Qed.

(** ** Installed-state query *)

(** C10.  On a null handle the query answers false without touching the
    instance; on a live handle it answers the instance's installed flag. *)
Theorem symbol_is_overridden_null_safe :
  symbol_is_overridden None = false /\
  forall s : override_symbol_inst,
    symbol_is_overridden (Some s) = installed s.
Proof. split; [reflexivity | intros s; reflexivity]. Qed.

(** ** Page arithmetic *)

Lemma wrap64_small (x : Z) : 0 <= x < 2 ^ 64 -> wrap64 x = x.
Proof. intros H. unfold wrap64. now apply Z.mod_small. Qed.

Lemma testbit_above_64 (x n : Z) :
  0 <= x < 2 ^ 64 -> 64 <= n -> Z.testbit x n = false.
Proof.
  intros Hx Hn.
  destruct (Z.eq_dec x 0) as [->|Hne]; [apply Z.bits_0|].
  apply Z.bits_above_log2; [lia|].
  assert (Z.log2 x < 64) by (apply Z.log2_lt_pow2; lia).
  lia.
Qed.

Lemma land_PAGE_MASK (x : Z) :
  0 <= x < 2 ^ 64 -> Z.land x PAGE_MASK = x / PAGE_SIZE * PAGE_SIZE.
Proof.
  intros Hx.
  change PAGE_MASK with (Z.shiftl (Z.ones 52) 12).
  change PAGE_SIZE with (2 ^ 12).
  rewrite <- Z.shiftr_div_pow2, <- Z.shiftl_mul_pow2 by lia.
  apply Z.bits_inj'. intros n Hn.
  rewrite Z.land_spec.
  destruct (Z.ltb_spec n 12) as [Hlo|Hhi].
  - rewrite !Z.shiftl_spec_low by lia. apply andb_false_r.
  - rewrite !Z.shiftl_spec by lia. rewrite Z.shiftr_spec by lia.
    replace (n - 12 + 12) with n by lia.
    destruct (Z.ltb_spec (n - 12) 52) as [Hin|Hout].
    + rewrite Z.ones_spec_low by lia. apply andb_true_r.
    + rewrite Z.ones_spec_high by lia. rewrite andb_false_r.
      symmetry. apply testbit_above_64; [assumption | lia].
Qed.

(** Below the last page, [PAGE_ALIGN_BOTTOM] is the page boundary strictly
    below the address: the page of an unaligned address, the page before
    an aligned one. *)
Lemma PAGE_ALIGN_BOTTOM_patchable (a : Z) :
  patchable a -> PAGE_ALIGN_BOTTOM a = (a - 1) / PAGE_SIZE * PAGE_SIZE.
Proof.
  unfold patchable, PAGE_ALIGN_BOTTOM, PAGE_ALIGN. intros H.
  change PAGE_SIZE with 4096 in *.
  rewrite (wrap64_small (a + 4096 - 1)) by lia.
  rewrite land_PAGE_MASK by lia. change PAGE_SIZE with 4096.
  replace (a + 4096 - 1) with ((a - 1) + 1 * 4096) by lia.
  rewrite Z.div_add by lia.
  assert (0 <= (a - 1) / 4096) by (apply Z.div_pos; lia).
  assert ((a - 1) / 4096 * 4096 <= a - 1)
    by (rewrite Z.mul_comm; apply Z.mul_div_le; lia).
  rewrite wrap64_small; lia.
Qed.

(** ** The protection loop *)

Lemma pte_loop_patchable (op : Z -> Z) (fuel : nat) (vaddr : Z) (pt : pagetable) :
  patchable vaddr -> (3 <= fuel)%nat ->
  pte_loop op fuel vaddr (PAGE_ALIGN_BOTTOM vaddr) pt = Some (touch op vaddr pt).
Proof.
  intros Hp Hf. rewrite PAGE_ALIGN_BOTTOM_patchable by assumption.
  unfold patchable in Hp. unfold touch, pages_touched, lookup_address.
  change PAGE_SIZE with 4096 in *.
  destruct fuel as [|[|[|fuel]]]; try lia.
  pose proof (Z.div_mod vaddr 4096 ltac:(lia)) as Hdm.
  pose proof (Z.mod_pos_bound vaddr 4096 ltac:(lia)) as Hr.
  destruct (Z.eqb_spec (vaddr mod 4096) 0) as [Hz|Hnz].
  - (* aligned: the page before, then the page itself *)
    assert (Hq : (vaddr - 1) / 4096 = vaddr / 4096 - 1).
    { replace (vaddr - 1) with (4095 + (vaddr / 4096 - 1) * 4096) by lia.
      rewrite Z.div_add by lia. reflexivity. }
    rewrite Hq.
    assert (Hv : vaddr = vaddr / 4096 * 4096) by lia.
    cbn [pte_loop fold_left].
    unfold lookup_address. change PAGE_SIZE with 4096.
    replace ((vaddr / 4096 - 1) * 4096 <=? vaddr) with true
      by (symmetry; apply Z.leb_le; lia).
    rewrite Z.div_mul by lia.
    replace (wrap64 ((vaddr / 4096 - 1) * 4096 + 4096)) with vaddr
      by (rewrite wrap64_small; lia).
    rewrite Z.leb_refl.
    replace (wrap64 (vaddr + 4096) <=? vaddr) with false
      by (symmetry; apply Z.leb_gt; rewrite wrap64_small; lia).
    reflexivity.
  - (* unaligned: the page of the address only *)
    assert (Hq : (vaddr - 1) / 4096 = vaddr / 4096).
    { replace (vaddr - 1) with ((vaddr mod 4096 - 1) + vaddr / 4096 * 4096) by lia.
      rewrite Z.div_add by lia. rewrite Z.div_small by lia. lia. }
    rewrite Hq.
    assert (0 <= vaddr / 4096) by (apply Z.div_pos; lia).
    cbn [pte_loop fold_left].
    unfold lookup_address. change PAGE_SIZE with 4096.
    replace (vaddr / 4096 * 4096 <=? vaddr) with true
      by (symmetry; apply Z.leb_le; lia).
    rewrite Z.div_mul by lia.
    replace (wrap64 (vaddr / 4096 * 4096 + 4096) <=? vaddr) with false
      by (symmetry; apply Z.leb_gt; rewrite wrap64_small; lia).
    reflexivity.
Qed.

(** What [touch] does to one entry. *)
Lemma touch_at (op : Z -> Z) (vaddr : Z) (pt : pagetable) (p : Z) :
  touch op vaddr pt p = if existsb (Z.eqb p) (pages_touched vaddr)
                        then op (pt p) else pt p.
Proof.
  unfold touch, pages_touched.
  destruct (vaddr mod PAGE_SIZE =? 0); cbn [fold_left existsb]; unfold upd;
    repeat match goal with
           | |- context [?a =? ?b] =>
               destruct (Z.eqb_spec a b); try lia; subst; cbn [orb]
           end; reflexivity.
Qed.

Lemma touch_own_page (op : Z -> Z) (vaddr : Z) (pt : pagetable) :
  touch op vaddr pt (lookup_address vaddr) = op (pt (lookup_address vaddr)).
Proof.
  rewrite touch_at. unfold pages_touched, lookup_address.
  destruct (vaddr mod PAGE_SIZE =? 0); cbn [existsb];
    rewrite Z.eqb_refl; now rewrite ?orb_true_r.
Qed.

Lemma touch_above (op : Z -> Z) (vaddr : Z) (pt : pagetable) (p : Z) :
  vaddr / PAGE_SIZE < p -> touch op vaddr pt p = pt p.
Proof.
  intros H. rewrite touch_at. unfold pages_touched.
  destruct (vaddr mod PAGE_SIZE =? 0); cbn [existsb];
    repeat match goal with
           | |- context [?a =? ?b] => destruct (Z.eqb_spec a b); try lia
           end; reflexivity.
Qed.

Lemma pte_set_rw_writable (pte : Z) : pte_writable (pte_set_rw pte) = true.
Proof.
  unfold pte_writable, pte_set_rw, _PAGE_RW.
  rewrite Z.lor_spec. change (Z.testbit 2 1) with true. apply orb_true_r.
Qed.

Lemma pte_clear_rw_readonly (pte : Z) : pte_writable (pte_clear_rw pte) = false.
Proof.
  unfold pte_writable, pte_clear_rw, _PAGE_RW.
  rewrite Z.land_spec. change (Z.testbit (Z.lnot 2) 1) with false.
  apply andb_false_r.
Qed.

(** ** The protection loop at the ends of the address space *)

(** On the extreme addresses the loop behaves differently: nothing is
    touched for the null address, and from the last page on it never
    leaves. *)
Lemma set_mem_rw_null (fuel : nat) (len : Z) (st : kstate) :
  (1 <= fuel)%nat ->
  set_mem_rw fuel 0 len st = Some (set_pgtable st (pgtable st)).
Proof.
  intros Hf. destruct fuel as [|fuel]; [lia|]. reflexivity.
Qed.

Lemma pte_loop_last_page (op : Z -> Z) (fuel : nat) (vaddr addr : Z)
    (pt : pagetable) :
  2 ^ 64 - PAGE_SIZE <= vaddr -> 0 <= addr <= 2 ^ 64 - PAGE_SIZE ->
  addr mod PAGE_SIZE = 0 ->
  pte_loop op fuel vaddr addr pt = None.
Proof.
  change PAGE_SIZE with 4096. intros Hv.
  revert addr pt; induction fuel as [|fuel IH]; intros addr pt Ha Hm;
    [reflexivity|].
  cbn [pte_loop].
  replace (addr <=? vaddr) with true by (symmetry; apply Z.leb_le; lia).
  change PAGE_SIZE with 4096.
  assert (Hdm := Z.div_mod addr 4096 ltac:(lia)).
  assert (Hw : 0 <= wrap64 (addr + 4096) <= 2 ^ 64 - 4096 /\
               wrap64 (addr + 4096) mod 4096 = 0).
  { destruct (Z.eq_dec addr (2 ^ 64 - 4096)) as [->|Hne].
    - split; [vm_compute; split; discriminate | reflexivity].
    - assert (addr + 4096 <= 2 ^ 64 - 4096).
      { replace (2 ^ 64) with (4096 * 2 ^ 52) in * by reflexivity. lia. }
      rewrite wrap64_small by lia. split; [lia|].
      rewrite <- (Z.mul_1_l 4096) at 1. rewrite Z.mod_add by lia. exact Hm. }
  apply IH; apply Hw.
Qed.

Lemma PAGE_ALIGN_BOTTOM_last_page (vaddr : Z) :
  2 ^ 64 - PAGE_SIZE < vaddr < 2 ^ 64 ->
  PAGE_ALIGN_BOTTOM vaddr = 2 ^ 64 - PAGE_SIZE.
Proof.
  change PAGE_SIZE with 4096. intros Hv.
  unfold PAGE_ALIGN_BOTTOM, PAGE_ALIGN. change PAGE_SIZE with 4096.
  assert (E : wrap64 (vaddr + 4096 - 1) = vaddr - 1 - (2 ^ 64 - 4096)).
  { unfold wrap64.
    replace (vaddr + 4096 - 1)
      with ((vaddr - 1 - (2 ^ 64 - 4096)) + 1 * 2 ^ 64) by lia.
    rewrite Z.mod_add by lia. apply Z.mod_small. lia. }
  rewrite E, land_PAGE_MASK by lia. change PAGE_SIZE with 4096.
  rewrite Z.div_small by lia. reflexivity.
Qed.

Lemma set_mem_rw_last_page (fuel : nat) (vaddr len : Z) (st : kstate) :
  2 ^ 64 - PAGE_SIZE <= vaddr < 2 ^ 64 ->
  set_mem_rw fuel vaddr len st = None.
Proof.
  change PAGE_SIZE with 4096. intros Hv. unfold set_mem_rw.
  assert (Hb : PAGE_ALIGN_BOTTOM vaddr = 2 ^ 64 - 4096 \/
               PAGE_ALIGN_BOTTOM vaddr = 2 ^ 64 - 8192).
  { destruct (Z.eq_dec vaddr (2 ^ 64 - 4096)) as [->|Hne].
    - right. reflexivity.
    - left. apply PAGE_ALIGN_BOTTOM_last_page. change PAGE_SIZE with 4096. lia. }
  rewrite pte_loop_last_page; [reflexivity | change PAGE_SIZE with 4096; lia | |].
  - change PAGE_SIZE with 4096. destruct Hb as [-> | ->]; lia.
  - destruct Hb as [-> | ->]; reflexivity.
Qed.

(** ** Operations on patchable addresses

    Everything in this section runs the protection loop on addresses
    below the last page, where three rounds of fuel are enough: at most
    two entries are rewritten before the loop condition fails. *)

Section EnoughFuel.

Variable fuel : nat.
Hypothesis fuel_enough : (3 <= fuel)%nat.

Lemma set_mem_rw_patchable (vaddr len : Z) (st : kstate) :
  patchable vaddr ->
  set_mem_rw fuel vaddr len st =
    Some (set_pgtable st (touch pte_set_rw vaddr (pgtable st))).
Proof.
  intros Hp. unfold set_mem_rw. now rewrite pte_loop_patchable.
Qed.

Lemma set_mem_ro_patchable (vaddr len : Z) (st : kstate) :
  patchable vaddr ->
  set_mem_ro fuel vaddr len st =
    Some (set_pgtable st (touch pte_clear_rw vaddr (pgtable st))).
Proof.
  intros Hp. unfold set_mem_ro. now rewrite pte_loop_patchable.
Qed.

(** ** Override instance lifecycle *)

Lemma build_jump_length (target : Z) :
  length (build_jump target) = OVERRIDE_JUMP_SIZE.
Proof.
  change (build_jump target)
    with ([0x48; 0xb8] ++ le_bytes 8 target ++ [0xff; 0xe0]).
  rewrite !length_app, le_bytes_length. reflexivity.
Qed.

Lemma firstn_whole (l : list Z) (n : nat) : length l = n -> firstn n l = l.
Proof. intros H. apply firstn_all2. lia. Qed.

(** [memcpy] of a whole code array, read back. *)
Lemma load_memcpy_array (m : memory) (a : Z) (l : list Z) :
  length l = OVERRIDE_JUMP_SIZE ->
  load_bytes (store_bytes m a (firstn OVERRIDE_JUMP_SIZE l)) a
    OVERRIDE_JUMP_SIZE = l.
Proof.
  intros H. rewrite (firstn_whole l) by assumption.
  rewrite <- H. apply load_store_same.
Qed.

(** A fresh instance: nothing installed, nothing captured, flagged
    protected, arrays of the declared size, non-null address. *)
Lemma get_ov_symbol_instance_fresh (k : kernel) (alloc_ok : bool)
    (nm : string) (new_ptr : Z) (sym : override_symbol_inst) :
  get_ov_symbol_instance k alloc_ok nm new_ptr = Ok sym ->
  sym = {| org_sym_ptr := kallsyms_lookup_name k nm; new_sym_ptr := new_ptr;
           org_sym_code := repeat 0 OVERRIDE_JUMP_SIZE;
           trampoline := repeat 0 OVERRIDE_JUMP_SIZE;
           installed := false; has_trampoline := false;
           mem_protected := true; name := nm |} /\
  kallsyms_lookup_name k nm <> 0 /\ alloc_ok = true.
Proof.
  unfold get_ov_symbol_instance. intros H.
  destruct alloc_ok; cbn in H; [|discriminate].
  destruct (Z.eqb_spec (kallsyms_lookup_name k nm) 0) as [E|E]; [discriminate|].
  injection H as <-. repeat split; assumption.
Qed.

(** Case analysis on an instance and its three flags, with the protection
    loop replaced by its result. *)
Ltac inst_fields :=
  cbn [installed has_trampoline mem_protected org_sym_ptr new_sym_ptr
       org_sym_code trampoline name negb orb prepare_trampoline
       with_installed with_mem_protected] in *.

Ltac inst_step :=
  unfold __enable_symbol_override, __disable_symbol_override,
    unprotect_if_needed, disable_mem_protection, enable_mem_protection;
  inst_fields;
  rewrite ?set_mem_rw_patchable by assumption;
  inst_fields.

Ltac inst_cases sym :=
  destruct sym as [org new code tramp [|] [|] [|] nm]; inst_step.

(** C4.  Enable followed by disable, on an instance whose address the
    protection loop can handle: both calls return 0, the instance ends up
    not installed, and the [OVERRIDE_JUMP_SIZE] bytes at the symbol's
    address are exactly the instance's saved original code.  For an
    instance that had captured nothing yet (as after creation) the saved
    code is what memory held at that address before enable. *)
Theorem enable_disable_round_trip (sym : override_symbol_inst)
    (st : kstate) :
  inst_wf sym -> patchable (org_sym_ptr sym) ->
  exists sym1 st1 sym2 st2,
    __enable_symbol_override fuel sym st = Some (0, sym1, st1) /\
    __disable_symbol_override fuel sym1 st1 = Some (0, sym2, st2) /\
    installed sym1 = true /\ installed sym2 = false /\
    org_sym_ptr sym2 = org_sym_ptr sym /\
    load_bytes (mem st2) (org_sym_ptr sym) OVERRIDE_JUMP_SIZE =
      org_sym_code sym2 /\
    org_sym_code sym2 =
      (if has_trampoline sym || installed sym then org_sym_code sym
       else load_bytes (mem st) (org_sym_ptr sym) OVERRIDE_JUMP_SIZE).
Proof.
  intros [Hc Ht] Hp.
  inst_cases sym;
    (do 4 eexists; split; [reflexivity|]; inst_step;
     split; [reflexivity|]; repeat (split; [reflexivity|]);
     inst_fields; cbn [mem memcpy_to set_mem set_pgtable];
     split; [|reflexivity]).
  all: apply load_memcpy_array; assumption || apply load_bytes_length.
Qed.

(** The scenario of a freshly created instance: after enable the bytes at
    the symbol are the jump to the replacement, after disable every byte
    of memory is what it was. *)
Lemma created_enable_disable_scenario (k : kernel) (alloc_ok : bool)
    (nm : string) (new_ptr : Z) (sym : override_symbol_inst)
    (st : kstate) :
  get_ov_symbol_instance k alloc_ok nm new_ptr = Ok sym ->
  patchable (org_sym_ptr sym) ->
  exists sym1 st1 sym2 st2,
    __enable_symbol_override fuel sym st = Some (0, sym1, st1) /\
    __disable_symbol_override fuel sym1 st1 = Some (0, sym2, st2) /\
    load_bytes (mem st1) (org_sym_ptr sym) OVERRIDE_JUMP_SIZE =
      build_jump new_ptr /\
    org_sym_code sym2 =
      load_bytes (mem st) (org_sym_ptr sym) OVERRIDE_JUMP_SIZE /\
    forall x, mem st2 x = mem st x.
Proof.
  intros Hc Hp.
  apply get_ov_symbol_instance_fresh in Hc. destruct Hc as (-> & Hnz & _).
  inst_step.
  do 4 eexists. split; [reflexivity|]. inst_step.
  split; [reflexivity|]. inst_fields.
  cbn [mem memcpy_to set_mem set_pgtable].
  split; [|split; [reflexivity|]].
  - apply load_memcpy_array, build_jump_length.
  - intros x.
    rewrite (firstn_whole (load_bytes _ _ _)) by apply load_bytes_length.
    apply store_loaded. intros y Hy.
    apply store_bytes_outside.
    rewrite (firstn_whole (build_jump new_ptr)) by apply build_jump_length.
    rewrite build_jump_length. exact Hy.
Qed.

(** Enable and disable on an instance in any state: the second of two
    calls in a row changes nothing, and the pair logs one store or none
    according to the installed flag. *)
Lemma enable_twice_any (sym : override_symbol_inst) (st : kstate) :
  patchable (org_sym_ptr sym) ->
  exists sym1 st1,
    __enable_symbol_override fuel sym st = Some (0, sym1, st1) /\
    __enable_symbol_override fuel sym1 st1 = Some (0, sym1, st1) /\
    length (stores st1) =
      ((if installed sym then 0 else 1) + length (stores st))%nat.
Proof.
  intros Hp.
  inst_cases sym; do 2 eexists; (split; [reflexivity|]); inst_step;
    split; reflexivity.
Qed.

Lemma disable_twice_any (sym : override_symbol_inst) (st : kstate) :
  patchable (org_sym_ptr sym) ->
  exists sym1 st1,
    __disable_symbol_override fuel sym st = Some (0, sym1, st1) /\
    __disable_symbol_override fuel sym1 st1 = Some (0, sym1, st1) /\
    length (stores st1) =
      ((if installed sym then 1 else 0) + length (stores st))%nat.
Proof.
  intros Hp.
  inst_cases sym; do 2 eexists; (split; [reflexivity|]); inst_step;
    split; reflexivity.
Qed.

(** C9.  On an instance that is not installed (every created instance
    starts so), two enables in a row store to the target exactly once: the
    first call logs one store of [OVERRIDE_JUMP_SIZE] bytes at the symbol,
    the second returns 0 and changes neither the instance nor the state.
    Two disables in a row after that store once and then not at all, and a
    disable on the not-installed instance is a no-op returning 0; so two
    disables store at most once. *)
Theorem enable_disable_idempotent (sym : override_symbol_inst)
    (st : kstate) :
  inst_wf sym -> installed sym = false ->
  patchable (org_sym_ptr sym) ->
  exists sym1 st1 sym2 st2,
    __enable_symbol_override fuel sym st = Some (0, sym1, st1) /\
    __enable_symbol_override fuel sym1 st1 = Some (0, sym1, st1) /\
    stores st1 = (org_sym_ptr sym, OVERRIDE_JUMP_SIZE) :: stores st /\
    __disable_symbol_override fuel sym1 st1 = Some (0, sym2, st2) /\
    __disable_symbol_override fuel sym2 st2 = Some (0, sym2, st2) /\
    stores st2 = (org_sym_ptr sym, OVERRIDE_JUMP_SIZE) :: stores st1 /\
    __disable_symbol_override fuel sym st = Some (0, sym, st).
Proof.
  intros [Hc Ht] Hi Hp.
  destruct sym as [org new code tramp ins has prot nm].
  cbn [installed] in Hi. subst ins.
  cbn [org_sym_code trampoline org_sym_ptr] in *.
  destruct has, prot; inst_step;
    (do 4 eexists; split; [reflexivity|]; inst_step;
     split; [reflexivity|];
     split; [cbn [stores memcpy_to set_mem set_pgtable]|];
     [| split; [reflexivity|]; inst_step; split; [reflexivity|];
        split; [cbn [stores memcpy_to set_mem set_pgtable]|reflexivity]]).
  all: rewrite ?length_firstn, ?build_jump_length, ?load_bytes_length, ?Hc, ?Ht;
    reflexivity.
Qed.

(** ** Memory protection controller: which pages are reached *)

(** C2.  For an address below the last page, [set_mem_rw] and
    [set_mem_ro] both finish; they set, respectively clear, the writable
    bit of the page [vaddr] lies in, and leave every page above it as it
    was, whatever [len] is.  A range [vaddr, vaddr + len] that runs into
    the next page therefore has its second page untouched. *)
Theorem set_mem_stops_at_vaddr_page (vaddr len : Z) (st : kstate) :
  patchable vaddr ->
  exists st_rw st_ro,
    set_mem_rw fuel vaddr len st = Some st_rw /\
    set_mem_ro fuel vaddr len st = Some st_ro /\
    page_writable (pgtable st_rw) vaddr = true /\
    page_writable (pgtable st_ro) vaddr = false /\
    forall p, lookup_address vaddr < p ->
      pgtable st_rw p = pgtable st p /\ pgtable st_ro p = pgtable st p.
Proof.
  intros Hp.
  rewrite set_mem_rw_patchable, set_mem_ro_patchable by assumption.
  do 2 eexists. split; [reflexivity|]. split; [reflexivity|].
  cbn [pgtable set_pgtable]. unfold page_writable.
  rewrite !touch_own_page, pte_set_rw_writable, pte_clear_rw_readonly.
  split; [reflexivity|]. split; [reflexivity|].
  intros p Hlt. unfold lookup_address in Hlt.
  now rewrite !touch_above.
Qed.

(** ** What the public operations leave behind in the page table *)

Lemma override_symbol_ng_result (k : kernel) (nm : string)
    (new_ptr : Z) (st : kstate) :
  patchable (kallsyms_lookup_name k nm) ->
  exists sym st',
    override_symbol_ng k true fuel nm new_ptr st = Some (Ok sym, st') /\
    org_sym_ptr sym = kallsyms_lookup_name k nm /\
    installed sym = true /\ mem_protected sym = true /\
    page_writable (pgtable st') (kallsyms_lookup_name k nm) = true.
Proof.
  intros Hp. unfold override_symbol_ng, get_ov_symbol_instance.
  cbn [negb].
  destruct (Z.eqb_spec (kallsyms_lookup_name k nm) 0) as [E|E];
    [unfold patchable in Hp; lia|].
  inst_step. cbn [Z.eqb negb]. inst_step.
  do 2 eexists. split; [reflexivity|]. inst_fields.
  do 3 (split; [reflexivity|]).
  cbn [pgtable set_pgtable memcpy_to set_mem]. unfold page_writable.
  rewrite touch_own_page. apply pte_set_rw_writable.
Qed.

Lemma restore_symbol_ng_result (sym : override_symbol_inst)
    (st : kstate) :
  patchable (org_sym_ptr sym) ->
  exists st',
    restore_symbol_ng fuel sym st = Some (0, st') /\
    page_writable (pgtable st') (org_sym_ptr sym) = true.
Proof.
  intros Hp. unfold restore_symbol_ng.
  inst_cases sym; cbn [Z.eqb negb]; inst_step;
    (eexists; split; [reflexivity|];
     cbn [pgtable set_pgtable memcpy_to set_mem]; unfold page_writable;
     rewrite touch_own_page; apply pte_set_rw_writable).
Qed.

(** The one-shot interface brackets its store with [set_mem_rw] and
    [set_mem_ro]: the page of the symbol is read-only when it returns. *)
Lemma override_symbol_reprotects (k : kernel) (nm : string) (new_ptr : Z)
    (st : kstate) :
  patchable (kallsyms_lookup_name k nm) ->
  exists code st',
    override_symbol k fuel nm new_ptr st =
      Some (Ok (kallsyms_lookup_name k nm, code), st') /\
    load_bytes (mem st') (kallsyms_lookup_name k nm) OVERRIDE_JUMP_SIZE =
      build_jump new_ptr /\
    page_writable (pgtable st') (kallsyms_lookup_name k nm) = false.
Proof.
  intros Hp. unfold override_symbol.
  destruct (Z.eqb_spec (kallsyms_lookup_name k nm) 0) as [E|E];
    [unfold patchable in Hp; lia|].
  rewrite set_mem_rw_patchable, set_mem_ro_patchable by assumption.
  do 2 eexists. split; [reflexivity|].
  cbn [mem pgtable set_pgtable memcpy_to set_mem]. split.
  - apply load_memcpy_array, build_jump_length.
  - unfold page_writable. rewrite touch_own_page. apply pte_clear_rw_readonly.
Qed.

Lemma restore_symbol_reprotects (org : Z) (code : list Z) (st : kstate) :
  patchable org -> length code = OVERRIDE_JUMP_SIZE ->
  exists st',
    restore_symbol fuel org code st = Some (0, st') /\
    load_bytes (mem st') org OVERRIDE_JUMP_SIZE = code /\
    page_writable (pgtable st') org = false.
Proof.
  intros Hp Hl. unfold restore_symbol.
  rewrite set_mem_rw_patchable, set_mem_ro_patchable by assumption.
  eexists. split; [reflexivity|].
  cbn [mem pgtable set_pgtable memcpy_to set_mem]. split.
  - now apply load_memcpy_array.
  - unfold page_writable. rewrite touch_own_page. apply pte_clear_rw_readonly.
Qed.

(** ** The one-shot interface, end to end *)

(** [override_symbol] followed by [restore_symbol] with the address and
    the backup it handed out: the backup is what memory held, the jump is
    in place in between, every byte of memory is back afterwards, and the
    symbol's page is read-only after each of the two calls. *)
Theorem one_shot_override_restore_round_trip (k : kernel) (nm : string)
    (new_ptr : Z) (st : kstate) :
  patchable (kallsyms_lookup_name k nm) ->
  exists code st1 st2,
    override_symbol k fuel nm new_ptr st =
      Some (Ok (kallsyms_lookup_name k nm, code), st1) /\
    code = load_bytes (mem st) (kallsyms_lookup_name k nm) OVERRIDE_JUMP_SIZE /\
    load_bytes (mem st1) (kallsyms_lookup_name k nm) OVERRIDE_JUMP_SIZE =
      build_jump new_ptr /\
    page_writable (pgtable st1) (kallsyms_lookup_name k nm) = false /\
    restore_symbol fuel (kallsyms_lookup_name k nm) code st1 = Some (0, st2) /\
    (forall x, mem st2 x = mem st x) /\
    page_writable (pgtable st2) (kallsyms_lookup_name k nm) = false.
Proof.
  intros Hp. unfold override_symbol, restore_symbol.
  destruct (Z.eqb_spec (kallsyms_lookup_name k nm) 0) as [E|E];
    [unfold patchable in Hp; lia|].
  set (a := kallsyms_lookup_name k nm) in *.
  rewrite !set_mem_rw_patchable, !set_mem_ro_patchable by assumption.
  do 3 eexists. split; [reflexivity|]. split; [reflexivity|].
  cbn [mem pgtable set_pgtable memcpy_to set_mem].
  split; [apply load_memcpy_array, build_jump_length|].
  split; [unfold page_writable; rewrite touch_own_page;
          apply pte_clear_rw_readonly|].
  rewrite set_mem_rw_patchable, set_mem_ro_patchable by assumption.
  split; [reflexivity|].
  cbn [mem pgtable set_pgtable memcpy_to set_mem]. split.
  - intros x.
    rewrite (firstn_whole (load_bytes _ _ _)) by apply load_bytes_length.
    apply store_loaded. intros y Hy.
    apply store_bytes_outside.
    rewrite (firstn_whole (build_jump new_ptr)) by apply build_jump_length.
    rewrite build_jump_length. exact Hy.
  - unfold page_writable. rewrite touch_own_page. apply pte_clear_rw_readonly.
Qed.

(** ** The instance interface, end to end *)

(** [override_symbol_ng] followed by [restore_symbol_ng] on the instance
    it returned: the instance reports itself overridden at the resolved
    address, the jump is in place in between, and every byte of memory is
    back afterwards. *)
Theorem ng_override_restore_round_trip (k : kernel) (nm : string)
    (new_ptr : Z) (st : kstate) :
  patchable (kallsyms_lookup_name k nm) ->
  exists sym st1 st2,
    override_symbol_ng k true fuel nm new_ptr st = Some (Ok sym, st1) /\
    symbol_is_overridden (Some sym) = true /\
    __get_org_ptr sym = kallsyms_lookup_name k nm /\
    load_bytes (mem st1) (kallsyms_lookup_name k nm) OVERRIDE_JUMP_SIZE =
      build_jump new_ptr /\
    restore_symbol_ng fuel sym st1 = Some (0, st2) /\
    forall x, mem st2 x = mem st x.
Proof.
  intros Hp. unfold override_symbol_ng, get_ov_symbol_instance.
  cbn [negb].
  destruct (Z.eqb_spec (kallsyms_lookup_name k nm) 0) as [E|E];
    [unfold patchable in Hp; lia|].
  set (a := kallsyms_lookup_name k nm) in *.
  inst_step. cbn [Z.eqb negb]. inst_step.
  do 3 eexists. split; [reflexivity|].
  unfold symbol_is_overridden, __get_org_ptr, restore_symbol_ng. inst_step.
  split; [reflexivity|]. split; [reflexivity|].
  cbn [mem memcpy_to set_mem set_pgtable].
  split; [apply load_memcpy_array, build_jump_length|].
  cbn [Z.eqb negb]. inst_step.
  split; [reflexivity|].
  cbn [mem memcpy_to set_mem set_pgtable]. intros x.
  rewrite (firstn_whole (load_bytes _ _ _)) by apply load_bytes_length.
  apply store_loaded. intros y Hy.
  apply store_bytes_outside.
  rewrite (firstn_whole (build_jump new_ptr)) by apply build_jump_length.
  rewrite build_jump_length. exact Hy.
Qed.

(** ** What enable and disable leave alone *)

(** Whatever state the instance is in, enable and the disable after it
    write no byte outside the [OVERRIDE_JUMP_SIZE] bytes at the symbol,
    leave the syscall statics alone, and keep the instance's address,
    replacement and name. *)
Theorem enable_disable_write_only_the_symbol (sym : override_symbol_inst)
    (st : kstate) :
  inst_wf sym -> patchable (org_sym_ptr sym) ->
  exists sym1 st1 sym2 st2,
    __enable_symbol_override fuel sym st = Some (0, sym1, st1) /\
    __disable_symbol_override fuel sym1 st1 = Some (0, sym2, st2) /\
    (forall x, x < org_sym_ptr sym \/
               org_sym_ptr sym + Z.of_nat OVERRIDE_JUMP_SIZE <= x ->
       mem st1 x = mem st x /\ mem st2 x = mem st x) /\
    overridden_syscall st2 = overridden_syscall st /\
    syscall_table_ptr st2 = syscall_table_ptr st /\
    __get_org_ptr sym2 = __get_org_ptr sym /\
    new_sym_ptr sym2 = new_sym_ptr sym /\ name sym2 = name sym.
Proof.
  intros [Hc Ht] Hp.
  inst_cases sym;
    (do 4 eexists; split; [reflexivity|]; inst_step;
     split; [reflexivity|]; inst_fields;
     cbn [mem memcpy_to set_mem set_pgtable overridden_syscall
          syscall_table_ptr];
     split; [|repeat split]).
  all: intros x Hx; split;
    rewrite ?store_bytes_outside; try reflexivity;
    rewrite ?length_firstn, ?build_jump_length, ?load_bytes_length, ?Hc, ?Ht;
    cbn [Nat.min]; try exact Hx.
Qed.

(** ** The call-through cycle *)

(** From a freshly created instance, enable / disable / enable: only the
    first enable runs the protection loop (one TLB flush) and clears the
    [mem_protected] flag; the disable and the second enable leave the page
    table as it is, with the symbol's page writable throughout.  The
    second enable puts the same jump back and does not capture the bytes
    again. *)
Theorem call_through_cycle_unprotects_once (k : kernel) (alloc_ok : bool)
    (nm : string) (new_ptr : Z) (sym : override_symbol_inst) (st : kstate) :
  get_ov_symbol_instance k alloc_ok nm new_ptr = Ok sym ->
  patchable (org_sym_ptr sym) ->
  exists sym1 st1 sym2 st2 sym3 st3,
    __enable_symbol_override fuel sym st = Some (0, sym1, st1) /\
    __disable_symbol_override fuel sym1 st1 = Some (0, sym2, st2) /\
    __enable_symbol_override fuel sym2 st2 = Some (0, sym3, st3) /\
    tlb_flushes st1 = S (tlb_flushes st) /\
    tlb_flushes st3 = tlb_flushes st1 /\
    pgtable st2 = pgtable st1 /\ pgtable st3 = pgtable st1 /\
    mem_protected sym1 = false /\ mem_protected sym2 = false /\
    mem_protected sym3 = false /\
    page_writable (pgtable st3) (org_sym_ptr sym) = true /\
    load_bytes (mem st3) (org_sym_ptr sym) OVERRIDE_JUMP_SIZE =
      build_jump new_ptr /\
    org_sym_code sym3 =
      load_bytes (mem st) (org_sym_ptr sym) OVERRIDE_JUMP_SIZE.
Proof.
  intros Hc Hp.
  apply get_ov_symbol_instance_fresh in Hc. destruct Hc as (-> & Hnz & _).
  inst_step.
  do 6 eexists. split; [reflexivity|]. inst_step.
  split; [reflexivity|]. inst_step.
  split; [reflexivity|]. inst_fields.
  cbn [mem pgtable tlb_flushes memcpy_to set_mem set_pgtable].
  do 7 (split; [reflexivity|]).
  split; [unfold page_writable; rewrite touch_own_page;
          apply pte_set_rw_writable|].
  split; [apply load_memcpy_array, build_jump_length | reflexivity].
Qed.

(** ** An invariant of the instance *)

(** An instance is installed only with a prepared trampoline, and its code
    arrays keep their size: this holds for every instance
    [get_ov_symbol_instance] builds and is kept by enable and by disable,
    from any state of the instance. *)
Theorem lifecycle_keeps_instance_ok (sym : override_symbol_inst) (st : kstate) :
  inst_ok sym -> patchable (org_sym_ptr sym) ->
  (exists sym1 st1 sym2 st2,
     __enable_symbol_override fuel sym st = Some (0, sym1, st1) /\
     __disable_symbol_override fuel sym st = Some (0, sym2, st2) /\
     inst_ok sym1 /\ installed sym1 = true /\
     inst_ok sym2 /\ installed sym2 = false) /\
  (forall kern ok nm new_ptr created,
     get_ov_symbol_instance kern ok nm new_ptr = Ok created ->
     inst_ok created).
Proof.
  intros [[Hc Ht] Hinv] Hp. split.
  - unfold inst_ok, inst_wf.
    destruct sym as [org new code tramp ins has prot nm].
    cbn [installed has_trampoline org_sym_code trampoline org_sym_ptr] in *.
    destruct ins; [rewrite Hinv by reflexivity|]; destruct has, prot;
      inst_step; (do 4 eexists; split; [reflexivity|]; split; [reflexivity|]);
      inst_fields;
      rewrite ?build_jump_length, ?load_bytes_length;
      repeat split; try assumption; try reflexivity; try discriminate.
  - intros kern ok nm new_ptr created Hcr.
    apply get_ov_symbol_instance_fresh in Hcr. destruct Hcr as (-> & _ & _).
    split; [split; reflexivity | discriminate].
Qed.

(** ** Which entries one protection call rewrites *)

Lemma pages_touched_are (vaddr p : Z) :
  existsb (Z.eqb p) (pages_touched vaddr) =
    (p =? lookup_address vaddr) || (p =? lookup_address (vaddr - 1)).
Proof.
  unfold pages_touched, lookup_address. change PAGE_SIZE with 4096.
  pose proof (Z.div_mod vaddr 4096 ltac:(lia)) as Hdm.
  pose proof (Z.mod_pos_bound vaddr 4096 ltac:(lia)) as Hr.
  destruct (Z.eqb_spec (vaddr mod 4096) 0) as [Hz|Hnz]; cbn [existsb].
  - assert (Hq : (vaddr - 1) / 4096 = vaddr / 4096 - 1).
    { replace (vaddr - 1) with (4095 + (vaddr / 4096 - 1) * 4096) by lia.
      rewrite Z.div_add by lia. reflexivity. }
    rewrite Hq, orb_false_r. apply orb_comm.
  - assert (Hq : (vaddr - 1) / 4096 = vaddr / 4096).
    { replace (vaddr - 1) with ((vaddr mod 4096 - 1) + vaddr / 4096 * 4096) by lia.
      rewrite Z.div_add by lia. rewrite Z.div_small by lia. lia. }
    rewrite Hq, orb_false_r. now rewrite orb_diag.
Qed.

Lemma pte_clear_set_rw (pte : Z) :
  pte_writable pte = false -> pte_clear_rw (pte_set_rw pte) = pte.
Proof.
  unfold pte_writable, pte_clear_rw, pte_set_rw, _PAGE_RW. intros H.
  apply Z.bits_inj'. intros n Hn.
  rewrite Z.land_spec, Z.lor_spec, Z.lnot_spec by assumption.
  change 2 with (2 ^ 1). rewrite Z.pow2_bits_eqb by lia.
  destruct (Z.eqb_spec 1 n) as [<-|Hne]; cbn [negb].
  - rewrite H. reflexivity.
  - now rewrite orb_false_r, andb_true_r.
Qed.

(** [set_mem_rw(vaddr, len)] makes writable the page of [vaddr] and the
    page of the byte just below [vaddr], and rewrites no other entry.  For
    a page-aligned [vaddr] the second is the page before the one asked
    for. *)
Theorem set_mem_rw_opens_pages_of_vaddr_and_byte_below (vaddr len : Z)
    (st : kstate) :
  patchable vaddr ->
  exists st1,
    set_mem_rw fuel vaddr len st = Some st1 /\
    page_writable (pgtable st1) vaddr = true /\
    page_writable (pgtable st1) (vaddr - 1) = true /\
    (forall p, p <> lookup_address vaddr -> p <> lookup_address (vaddr - 1) ->
       pgtable st1 p = pgtable st p) /\
    mem st1 = mem st /\ tlb_flushes st1 = S (tlb_flushes st).
Proof.
  intros Hp. rewrite set_mem_rw_patchable by assumption.
  eexists. split; [reflexivity|]. cbn [pgtable mem tlb_flushes set_pgtable].
  unfold page_writable.
  split; [rewrite touch_own_page; apply pte_set_rw_writable|].
  split.
  - rewrite touch_at, pages_touched_are, Z.eqb_refl, orb_true_r.
    apply pte_set_rw_writable.
  - split; [|split; reflexivity].
    intros p H1 H2. rewrite touch_at, pages_touched_are.
    destruct (Z.eqb_spec p (lookup_address vaddr)); [contradiction|].
    destruct (Z.eqb_spec p (lookup_address (vaddr - 1))); [contradiction|].
    reflexivity.
Qed.

(** "Reverses set_mem_rw()": when the page of [vaddr] and the page of the
    byte below it are read-only, [set_mem_rw] followed by [set_mem_ro] on
    the same address gives back the page table entry for entry, at the
    price of two TLB flushes. *)
Theorem set_mem_ro_reverses_set_mem_rw (vaddr len : Z) (st : kstate) :
  patchable vaddr ->
  page_writable (pgtable st) vaddr = false ->
  page_writable (pgtable st) (vaddr - 1) = false ->
  exists st1 st2,
    set_mem_rw fuel vaddr len st = Some st1 /\
    set_mem_ro fuel vaddr len st1 = Some st2 /\
    (forall p, pgtable st2 p = pgtable st p) /\
    mem st2 = mem st /\ stores st2 = stores st /\
    tlb_flushes st2 = S (S (tlb_flushes st)).
Proof.
  intros Hp Hown Hbelow.
  rewrite set_mem_rw_patchable by assumption.
  do 2 eexists. split; [reflexivity|].
  rewrite set_mem_ro_patchable by assumption.
  split; [reflexivity|].
  cbn [pgtable mem stores tlb_flushes set_pgtable].
  split; [|repeat split].
  intros p. rewrite !touch_at, pages_touched_are.
  unfold page_writable in Hown, Hbelow.
  destruct (Z.eqb_spec p (lookup_address vaddr)) as [->|_];
    [now apply pte_clear_set_rw|].
  destruct (Z.eqb_spec p (lookup_address (vaddr - 1))) as [->|_];
    [now apply pte_clear_set_rw | reflexivity].
Qed.

(** ** Overriding twice through the one-shot interface *)

(** The backup [override_symbol] hands out is whatever memory holds at
    the symbol when it is called: a second [override_symbol] on the same
    name backs up the first call's jump, and [restore_symbol] with that
    backup puts the first jump back, not the original code. *)
Theorem one_shot_double_override_backs_up_the_jump (k : kernel) (nm : string)
    (p1 p2 : Z) (st : kstate) :
  patchable (kallsyms_lookup_name k nm) ->
  exists code1 st1 code2 st2 st3,
    override_symbol k fuel nm p1 st =
      Some (Ok (kallsyms_lookup_name k nm, code1), st1) /\
    override_symbol k fuel nm p2 st1 =
      Some (Ok (kallsyms_lookup_name k nm, code2), st2) /\
    code2 = build_jump p1 /\
    load_bytes (mem st2) (kallsyms_lookup_name k nm) OVERRIDE_JUMP_SIZE =
      build_jump p2 /\
    restore_symbol fuel (kallsyms_lookup_name k nm) code2 st2 = Some (0, st3) /\
    load_bytes (mem st3) (kallsyms_lookup_name k nm) OVERRIDE_JUMP_SIZE =
      build_jump p1.
Proof.
  intros Hp. unfold override_symbol, restore_symbol.
  destruct (Z.eqb_spec (kallsyms_lookup_name k nm) 0) as [E|E];
    [unfold patchable in Hp; lia|].
  set (a := kallsyms_lookup_name k nm) in *.
  rewrite !set_mem_rw_patchable, !set_mem_ro_patchable by assumption.
  do 5 eexists. split; [reflexivity|].
  rewrite set_mem_rw_patchable, set_mem_ro_patchable by assumption.
  split; [reflexivity|].
  cbn [mem pgtable set_pgtable memcpy_to set_mem].
  split; [apply load_memcpy_array, build_jump_length|].
  split; [apply load_memcpy_array, build_jump_length|].
  rewrite set_mem_rw_patchable, set_mem_ro_patchable by assumption.
  split; [reflexivity|].
  cbn [mem pgtable set_pgtable memcpy_to set_mem].
  rewrite (load_memcpy_array (mem st) a (build_jump p1))
    by apply build_jump_length.
  apply load_memcpy_array, build_jump_length.
Qed.

(** ** Syscall override registry *)

Section Registry.

Variable k : kernel.

Lemma record_original_frame (st : kstate) (n : Z) :
  mem (record_original st n) = mem st /\
  pgtable (record_original st n) = pgtable st /\
  syscall_table_ptr (record_original st n) = syscall_table_ptr st /\
  stores (record_original st n) = stores st.
Proof.
  unfold record_original.
  destruct (negb (overridden_syscall st n =? 0)); repeat split.
Qed.

Lemma record_original_at (st : kstate) (n : Z) :
  overridden_syscall (record_original st n) n =
    if overridden_syscall st n =? 0 then read_slot st n
    else overridden_syscall st n.
Proof.
  unfold record_original.
  destruct (overridden_syscall st n =? 0) eqn:E; cbn [negb].
  - cbn [overridden_syscall set_overridden_syscall]. apply upd_same.
  - reflexivity.
Qed.

Lemma record_original_recorded (st : kstate) (n : Z) :
  overridden_syscall st n <> 0 -> record_original st n = st.
Proof.
  intros H. unfold record_original.
  destruct (Z.eqb_spec (overridden_syscall st n) 0); [contradiction|].
  reflexivity.
Qed.

Lemma record_original_elsewhere (st : kstate) (n m : Z) :
  m <> n ->
  overridden_syscall (record_original st n) m = overridden_syscall st m.
Proof.
  intros H. unfold record_original.
  destruct (negb (overridden_syscall st n =? 0)); [reflexivity|].
  cbn [overridden_syscall set_overridden_syscall]. now apply upd_other.
Qed.

Lemma override_syscall_located (n p : Z)
    (c : option Z) (st : kstate) :
  syscall_table_ptr st <> 0 -> n <= __NR_syscall_max k ->
  patchable (slot_addr (syscall_table_ptr st) n) ->
  override_syscall k fuel n p c st =
    Some (0,
          match c with
          | None => None
          | Some _ => Some (overridden_syscall (record_original st n) n)
          end,
          after_override st n p).
Proof.
  intros Ht Hn Hp. unfold override_syscall.
  destruct (Z.eqb_spec (syscall_table_ptr st) 0) as [E|_]; [contradiction|].
  cbn [Z.eqb negb].
  replace (__NR_syscall_max k <? n) with false
    by (symmetry; apply Z.ltb_ge; lia).
  fold (record_original st n).
  destruct (record_original_frame st n) as (Hm & Hg & Hs & Hl).
  rewrite Hs.
  rewrite set_mem_rw_patchable by assumption.
  rewrite set_mem_ro_patchable
    by (try assumption; cbn [write_slot set_mem set_pgtable syscall_table_ptr];
        rewrite ?Hs; assumption).
  reflexivity.
Qed.

Lemma restore_syscall_located (n : Z) (st : kstate) :
  syscall_table_ptr st <> 0 -> n <= __NR_syscall_max k ->
  overridden_syscall st n <> 0 ->
  patchable (slot_addr (syscall_table_ptr st) n) ->
  restore_syscall k fuel n st = Some (0, after_restore st n).
Proof.
  intros Ht Hn Ho Hp. unfold restore_syscall.
  destruct (Z.eqb_spec (syscall_table_ptr st) 0) as [E|_]; [contradiction|].
  replace (__NR_syscall_max k <? n) with false
    by (symmetry; apply Z.ltb_ge; lia).
  destruct (Z.eqb_spec (overridden_syscall st n) 0) as [E|_]; [contradiction|].
  rewrite set_mem_rw_patchable by assumption.
  rewrite set_mem_rw_patchable by assumption.
  reflexivity.
Qed.

Lemma after_override_facts (st : kstate) (n p : Z) :
  syscall_table_ptr (after_override st n p) = syscall_table_ptr st /\
  overridden_syscall (after_override st n p) =
    overridden_syscall (record_original st n) /\
  read_slot (after_override st n p) n = wrap64 p /\
  page_writable (pgtable (after_override st n p))
    (slot_addr (syscall_table_ptr st) n) = false /\
  stores (after_override st n p) =
    (slot_addr (syscall_table_ptr st) n, 8%nat) :: stores st.
Proof.
  destruct (record_original_frame st n) as (Hm & Hg & Hs & Hl).
  unfold after_override, read_slot, write_slot, page_writable.
  cbn [mem pgtable syscall_table_ptr overridden_syscall stores
       set_pgtable set_mem].
  rewrite Hs, Hl.
  repeat split.
  - apply load64_store64_same.
  - rewrite touch_own_page. apply pte_clear_rw_readonly.
Qed.

Lemma after_restore_facts (st : kstate) (n : Z) :
  syscall_table_ptr (after_restore st n) = syscall_table_ptr st /\
  overridden_syscall (after_restore st n) = overridden_syscall st /\
  read_slot (after_restore st n) n = wrap64 (overridden_syscall st n) /\
  page_writable (pgtable (after_restore st n))
    (slot_addr (syscall_table_ptr st) n) = true.
Proof.
  unfold after_restore, read_slot, write_slot, page_writable.
  cbn [mem pgtable syscall_table_ptr overridden_syscall stores
       set_pgtable set_mem].
  repeat split.
  - apply load64_store64_same.
  - rewrite touch_own_page. apply pte_set_rw_writable.
Qed.

(** C3.  With the table located, a valid number [n] never overridden
    before, and a non-null 64-bit pointer in its dispatch slot: the first
    [override_syscall] records that pointer; a second one with another
    pointer leaves the record as it is; and [restore_syscall] then writes
    the recorded pointer, not the first override's, back into the slot.
    Neither the second override nor the restore changes any entry of the
    registry. *)
Theorem registry_first_write_wins (n p1 p2 : Z)
    (c1 c2 : option Z) (st : kstate) :
  syscall_table_ptr st <> 0 -> n <= __NR_syscall_max k ->
  patchable (slot_addr (syscall_table_ptr st) n) ->
  overridden_syscall st n = 0 ->
  kernel_pointer (read_slot st n) ->
  exists r1 st1 r2 st2 st3,
    override_syscall k fuel n p1 c1 st = Some (0, r1, st1) /\
    overridden_syscall st1 n = read_slot st n /\
    read_slot st1 n = wrap64 p1 /\
    override_syscall k fuel n p2 c2 st1 = Some (0, r2, st2) /\
    overridden_syscall st2 = overridden_syscall st1 /\
    read_slot st2 n = wrap64 p2 /\
    restore_syscall k fuel n st2 = Some (0, st3) /\
    read_slot st3 n = read_slot st n /\
    overridden_syscall st3 = overridden_syscall st1.
Proof.
  intros Ht Hn Hp Hz Horig. unfold kernel_pointer in Horig.
  set (st1 := after_override st n p1).
  set (st2 := after_override st1 n p2).
  destruct (after_override_facts st n p1) as (T1 & R1 & S1 & _ & _).
  destruct (after_override_facts st1 n p2) as (T2 & R2 & S2 & _ & _).
  destruct (after_restore_facts st2 n) as (T3 & R3 & S3 & _).
  fold st1 in T1, R1, S1. fold st2 in T2, R2, S2.
  assert (Rec1 : overridden_syscall st1 n = read_slot st n).
  { rewrite R1, record_original_at, Hz. reflexivity. }
  assert (Keep : overridden_syscall st2 = overridden_syscall st1).
  { rewrite R2, record_original_recorded; [reflexivity|]. rewrite Rec1. lia. }
  exists (match c1 with
          | None => None
          | Some _ => Some (overridden_syscall (record_original st n) n)
          end), st1.
  exists (match c2 with
          | None => None
          | Some _ => Some (overridden_syscall (record_original st1 n) n)
          end), st2.
  exists (after_restore st2 n).
  split; [now apply override_syscall_located|].
  split; [exact Rec1|]. split; [exact S1|].
  split; [apply override_syscall_located; rewrite ?T1; assumption|].
  split; [exact Keep|]. split; [exact S2|].
  split.
  { apply restore_syscall_located; rewrite ?T2, ?T1; try assumption.
    rewrite Keep, Rec1. lia. }
  split.
  - rewrite S3, Keep, Rec1. apply wrap64_small. lia.
  - rewrite R3. exact Keep.
Qed.

(** The registry treats a null record as no record: when the slot itself
    held a null pointer, the second override records the first one's
    pointer. *)
Lemma null_slot_is_recaptured (n p1 p2 : Z)
    (st : kstate) :
  syscall_table_ptr st <> 0 -> n <= __NR_syscall_max k ->
  patchable (slot_addr (syscall_table_ptr st) n) ->
  overridden_syscall st n = 0 -> read_slot st n = 0 ->
  exists r1 st1 r2 st2,
    override_syscall k fuel n p1 None st = Some (0, r1, st1) /\
    override_syscall k fuel n p2 None st1 = Some (0, r2, st2) /\
    overridden_syscall st1 n = 0 /\
    overridden_syscall st2 n = wrap64 p1.
Proof.
  intros Ht Hn Hp Hz Hs.
  destruct (after_override_facts st n p1) as (T1 & R1 & S1 & _ & _).
  destruct (after_override_facts (after_override st n p1) n p2)
    as (T2 & R2 & S2 & _ & _).
  assert (Rec1 : overridden_syscall (after_override st n p1) n = 0).
  { rewrite R1, record_original_at, Hz. exact Hs. }
  exists None, (after_override st n p1).
  exists None, (after_override (after_override st n p1) n p2).
  split; [now apply override_syscall_located|].
  split; [apply override_syscall_located; rewrite ?T1; assumption|].
  split; [exact Rec1|].
  rewrite R2, record_original_at, Rec1. exact S1.
Qed.

(** Overriding one number leaves the slot and the record of every other
    number alone (for a table that does not wrap round the address
    space). *)
Lemma override_leaves_other_numbers (n m p : Z) (c : option Z) (st : kstate) :
  syscall_table_ptr st <> 0 -> 0 <= n <= __NR_syscall_max k ->
  0 <= m -> m <> n ->
  0 <= syscall_table_ptr st ->
  syscall_table_ptr st + PTR_SIZE * (n + 1) <= 2 ^ 64 ->
  syscall_table_ptr st + PTR_SIZE * (m + 1) <= 2 ^ 64 ->
  patchable (slot_addr (syscall_table_ptr st) n) ->
  exists r st',
    override_syscall k fuel n p c st = Some (0, r, st') /\
    read_slot st' m = read_slot st m /\
    overridden_syscall st' m = overridden_syscall st m.
Proof.
  intros Ht [Hn0 Hn] Hm Hne Hb Hbn Hbm Hp.
  rewrite override_syscall_located by assumption.
  do 2 eexists. split; [reflexivity|].
  destruct (record_original_frame st n) as (Hmem & _ & Hs & _).
  split.
  - unfold after_override, read_slot, write_slot.
    cbn [mem syscall_table_ptr set_pgtable set_mem].
    rewrite Hs, Hmem. unfold slot_addr, PTR_SIZE in *.
    rewrite !wrap64_small by lia.
    apply load64_store64_other. lia.
  - destruct (after_override_facts st n p) as (_ & R & _).
    rewrite R. now apply record_original_elsewhere.
Qed.

(** C6 (amended).  With the table located and a valid number, a
    successful [override_syscall] hands back the registry's record for
    that number: the pointer found in the slot when no record existed yet,
    and otherwise the pointer recorded by the first override, whatever the
    slot holds now. *)
Theorem override_returns_recorded_original (n p v0 : Z) (st : kstate) :
  syscall_table_ptr st <> 0 -> n <= __NR_syscall_max k ->
  patchable (slot_addr (syscall_table_ptr st) n) ->
  exists v st',
    override_syscall k fuel n p (Some v0) st = Some (0, Some v, st') /\
    v = overridden_syscall st' n /\
    v = (if overridden_syscall st n =? 0 then read_slot st n
         else overridden_syscall st n).
Proof.
  intros Ht Hn Hp.
  destruct (after_override_facts st n p) as (_ & R & _).
  rewrite override_syscall_located by assumption.
  do 2 eexists. split; [reflexivity|].
  split; [now rewrite R | apply record_original_at].
Qed.

(** Of the two syscall entry points, [override_syscall] re-protects: the
    page of the slot it wrote is read-only when it returns. *)
Lemma override_syscall_reprotects (n p : Z)
    (c : option Z) (st : kstate) :
  syscall_table_ptr st <> 0 -> n <= __NR_syscall_max k ->
  patchable (slot_addr (syscall_table_ptr st) n) ->
  exists r st',
    override_syscall k fuel n p c st = Some (0, r, st') /\
    page_writable (pgtable st') (slot_addr (syscall_table_ptr st) n) = false.
Proof.
  intros Ht Hn Hp.
  destruct (after_override_facts st n p) as (_ & _ & _ & W & _).
  rewrite override_syscall_located by assumption.
  do 2 eexists. split; [reflexivity | exact W].
Qed.

Lemma restore_syscall_leaves_writable (n : Z)
    (st : kstate) :
  syscall_table_ptr st <> 0 -> n <= __NR_syscall_max k ->
  overridden_syscall st n <> 0 ->
  patchable (slot_addr (syscall_table_ptr st) n) ->
  exists st',
    restore_syscall k fuel n st = Some (0, st') /\
    page_writable (pgtable st') (slot_addr (syscall_table_ptr st) n) = true.
Proof.
  intros Ht Hn Ho Hp.
  destruct (after_restore_facts st n) as (_ & _ & _ & W).
  eexists. split; [now apply restore_syscall_located | exact W].
Qed.

(** ** Restoring, with and without a record *)

(** With the table located and a valid number, [restore_syscall] goes by
    the registry alone: without a record it answers [-EINVAL] and changes
    nothing; with one it answers 0, puts the recorded pointer into the
    slot and keeps every record. *)
Theorem restore_goes_by_the_record (n : Z) (st : kstate) :
  syscall_table_ptr st <> 0 -> n <= __NR_syscall_max k ->
  patchable (slot_addr (syscall_table_ptr st) n) ->
  exists out st',
    restore_syscall k fuel n st = Some (out, st') /\
    (overridden_syscall st n = 0 -> out = - EINVAL /\ st' = st) /\
    (overridden_syscall st n <> 0 ->
       out = 0 /\
       read_slot st' n = wrap64 (overridden_syscall st n) /\
       overridden_syscall st' = overridden_syscall st).
Proof.
  intros Ht Hn Hp.
  destruct (Z.eq_dec (overridden_syscall st n) 0) as [Hz|Hnz].
  - exists (- EINVAL), st. split; [|split; [auto | contradiction]].
    unfold restore_syscall.
    destruct (Z.eqb_spec (syscall_table_ptr st) 0) as [E|_]; [contradiction|].
    replace (__NR_syscall_max k <? n) with false
      by (symmetry; apply Z.ltb_ge; lia).
    now rewrite Hz.
  - exists 0, (after_restore st n).
    split; [now apply restore_syscall_located|].
    split; [contradiction|]. intros _.
    destruct (after_restore_facts st n) as (_ & R & S & _). auto.
Qed.

(** Override then restore, and restore once more: the slot holds the new
    pointer in between and its first value after each restore, and no
    byte outside the slot is written by any of the three calls. *)
Theorem syscall_override_restore_round_trip (n p : Z) (c : option Z)
    (st : kstate) :
  syscall_table_ptr st <> 0 -> n <= __NR_syscall_max k ->
  patchable (slot_addr (syscall_table_ptr st) n) ->
  overridden_syscall st n = 0 ->
  kernel_pointer (read_slot st n) ->
  exists r st1 st2 st3,
    override_syscall k fuel n p c st = Some (0, r, st1) /\
    read_slot st1 n = wrap64 p /\
    restore_syscall k fuel n st1 = Some (0, st2) /\
    read_slot st2 n = read_slot st n /\
    restore_syscall k fuel n st2 = Some (0, st3) /\
    read_slot st3 n = read_slot st n /\
    forall x, x < slot_addr (syscall_table_ptr st) n \/
              slot_addr (syscall_table_ptr st) n + PTR_SIZE <= x ->
      mem st3 x = mem st x.
Proof.
  intros Ht Hn Hp Hz Horig. unfold kernel_pointer in Horig.
  set (st1 := after_override st n p).
  set (st2 := after_restore st1 n).
  destruct (after_override_facts st n p) as (T1 & R1 & S1 & _ & _).
  destruct (after_restore_facts st1 n) as (T2 & R2 & S2 & _).
  destruct (after_restore_facts st2 n) as (T3 & R3 & S3 & _).
  fold st1 in T1, R1, S1. fold st2 in T2, R2, S2.
  assert (Rec1 : overridden_syscall st1 n = read_slot st n).
  { rewrite R1, record_original_at, Hz. reflexivity. }
  assert (Rec2 : overridden_syscall st2 n = read_slot st n)
    by (now rewrite R2).
  rewrite override_syscall_located by assumption. fold st1.
  do 4 eexists. split; [reflexivity|]. split; [exact S1|].
  split.
  { apply restore_syscall_located; rewrite ?T1; try assumption.
    rewrite Rec1. lia. }
  fold st2. split; [rewrite S2, Rec1; apply wrap64_small; lia|].
  split.
  { apply restore_syscall_located; rewrite ?T2, ?T1; try assumption.
    rewrite Rec2. lia. }
  split; [rewrite S3, Rec2; apply wrap64_small; lia|].
  intros x Hx.
  destruct (record_original_frame st n) as (Hmem & _ & Hs & _).
  unfold after_restore, write_slot.
  cbn [mem syscall_table_ptr overridden_syscall set_pgtable set_mem].
  rewrite T2, T1. unfold store64 at 1.
  rewrite store_bytes_outside by (rewrite le_bytes_length; exact Hx).
  subst st2. unfold after_restore, write_slot.
  cbn [mem syscall_table_ptr overridden_syscall set_pgtable set_mem].
  rewrite T1. unfold store64 at 1.
  rewrite store_bytes_outside by (rewrite le_bytes_length; exact Hx).
  subst st1. unfold after_override, write_slot.
  cbn [mem syscall_table_ptr overridden_syscall set_pgtable set_mem].
  rewrite Hs, Hmem. unfold store64.
  apply store_bytes_outside. rewrite le_bytes_length. exact Hx.
Qed.

(** ** The registry only grows *)

(** Neither entry point ever changes or clears a record that exists:
    [override_syscall] keeps every non-null record (it can only fill the
    empty one of its own number), and [restore_syscall] keeps the whole
    registry, whether it succeeds or not. *)
Theorem registry_records_are_permanent (n p : Z) (c : option Z) (st : kstate) :
  syscall_table_ptr st <> 0 -> n <= __NR_syscall_max k ->
  patchable (slot_addr (syscall_table_ptr st) n) ->
  exists r st1 out st2,
    override_syscall k fuel n p c st = Some (0, r, st1) /\
    restore_syscall k fuel n st = Some (out, st2) /\
    (forall m, overridden_syscall st m <> 0 ->
       overridden_syscall st1 m = overridden_syscall st m) /\
    (forall m, m <> n -> overridden_syscall st1 m = overridden_syscall st m) /\
    overridden_syscall st2 = overridden_syscall st.
Proof.
  intros Ht Hn Hp.
  rewrite override_syscall_located by assumption.
  destruct (after_override_facts st n p) as (_ & R & _).
  assert (Hres : exists out st2,
             restore_syscall k fuel n st = Some (out, st2) /\
             overridden_syscall st2 = overridden_syscall st).
  { destruct (Z.eq_dec (overridden_syscall st n) 0) as [Hz|Hnz].
    - exists (- EINVAL), st. split; [|reflexivity].
      unfold restore_syscall.
      destruct (Z.eqb_spec (syscall_table_ptr st) 0) as [E|_]; [contradiction|].
      replace (__NR_syscall_max k <? n) with false
        by (symmetry; apply Z.ltb_ge; lia).
      now rewrite Hz.
    - exists 0, (after_restore st n).
      split; [now apply restore_syscall_located|].
      now destruct (after_restore_facts st n) as (_ & R' & _). }
  destruct Hres as (out & st2 & Hrun & Hkeep).
  do 2 eexists. exists out, st2.
  split; [reflexivity|]. split; [exact Hrun|].
  split; [|split; [|exact Hkeep]].
  - intros m Hm. rewrite R.
    destruct (Z.eq_dec m n) as [->|Hne].
    + rewrite record_original_at.
      destruct (Z.eqb_spec (overridden_syscall st n) 0); [contradiction|].
      reflexivity.
    + now apply record_original_elsewhere.
  - intros m Hne. rewrite R. now apply record_original_elsewhere.
Qed.

(** ** What one override writes *)

(** A successful [override_syscall] stores once, eight bytes at the slot
    of its number: every other byte of memory is as before, the cached
    table base is unchanged, and the page of the slot is read-only on
    return. *)
Theorem override_syscall_writes_one_slot (n p : Z) (c : option Z)
    (st : kstate) :
  syscall_table_ptr st <> 0 -> n <= __NR_syscall_max k ->
  patchable (slot_addr (syscall_table_ptr st) n) ->
  exists r st',
    override_syscall k fuel n p c st = Some (0, r, st') /\
    stores st' = (slot_addr (syscall_table_ptr st) n, 8%nat) :: stores st /\
    (forall x, x < slot_addr (syscall_table_ptr st) n \/
               slot_addr (syscall_table_ptr st) n + PTR_SIZE <= x ->
       mem st' x = mem st x) /\
    syscall_table_ptr st' = syscall_table_ptr st /\
    page_writable (pgtable st') (slot_addr (syscall_table_ptr st) n) = false.
Proof.
  intros Ht Hn Hp.
  rewrite override_syscall_located by assumption.
  destruct (after_override_facts st n p) as (T & _ & _ & W & L).
  do 2 eexists. split; [reflexivity|]. split; [exact L|].
  split; [|split; [exact T | exact W]].
  intros x Hx.
  destruct (record_original_frame st n) as (Hmem & _ & Hs & _).
  unfold after_override, write_slot.
  cbn [mem syscall_table_ptr set_pgtable set_mem].
  rewrite Hs, Hmem. unfold store64.
  apply store_bytes_outside. rewrite le_bytes_length. exact Hx.
Qed.

End Registry.

End EnoughFuel.

(** ** Order of the checks in the syscall entry points *)

(** The locator touches nothing but the cached table pointer, and reports
    0 or [-EFAULT]. *)
Lemma find_sys_call_table_frame (k : kernel) (fuel : nat) (st st1 : kstate)
    (out : Z) :
  find_sys_call_table k fuel st = Some (out, st1) ->
  mem st1 = mem st /\ overridden_syscall st1 = overridden_syscall st /\
  pgtable st1 = pgtable st /\ stores st1 = stores st /\
  (out = 0 \/ out = - EFAULT).
Proof.
  unfold find_sys_call_table.
  destruct (negb (kallsyms_lookup_name k "sys_call_table" =? 0)).
  - intros H; injection H as <- <-. repeat split. now left.
  - destruct (_ || _ || _ || _).
    + intros H; injection H as <- <-. repeat split. now right.
    + destruct (scan_loop _ _ _ _ _ _ _) as [[tbl|]|]; [| |discriminate];
        intros H; injection H as <- <-; repeat split; [now left | now right].
Qed.

(** C7 (amended).  For a number above [__NR_syscall_max]: when the table
    base is cached, both entry points answer [-EINVAL] and change nothing
    at all.  When it is not cached, [restore_syscall] answers [-EFAULT]
    before looking at the number, and [override_syscall] runs the locator
    first: it reports the locator's failure if there is one and validates
    the number only after the locator succeeded; memory and the registry
    are unchanged on every one of these paths. *)
Theorem out_of_range_number_rejected (k : kernel) (fuel : nat) (n p : Z)
    (c : option Z) (st : kstate) :
  NR_syscalls k <= n ->
  restore_syscall k fuel n st =
    Some (if syscall_table_ptr st =? 0 then - EFAULT else - EINVAL, st) /\
  override_syscall k fuel n p c st =
    (if syscall_table_ptr st =? 0 then
       match find_sys_call_table k fuel st with
       | None => None
       | Some (out, st1) => Some (if out =? 0 then - EINVAL else out, c, st1)
       end
     else Some (- EINVAL, c, st)) /\
  (forall r st', override_syscall k fuel n p c st = Some (r, st') ->
     mem st' = mem st /\ overridden_syscall st' = overridden_syscall st /\
     fst r <> 0).
Proof.
  unfold NR_syscalls. intros Hn.
  assert (Hlt : (__NR_syscall_max k <? n) = true) by (apply Z.ltb_lt; lia).
  split; [|split].
  - unfold restore_syscall. rewrite Hlt.
    destruct (syscall_table_ptr st =? 0); reflexivity.
  - unfold override_syscall. rewrite Hlt.
    destruct (syscall_table_ptr st =? 0).
    + destruct (find_sys_call_table k fuel st) as [[out st1]|]; [|reflexivity].
      destruct (Z.eqb_spec out 0) as [->|Hne]; cbn [negb]; reflexivity.
    + reflexivity.
  - unfold override_syscall. rewrite Hlt.
    destruct (syscall_table_ptr st =? 0).
    + destruct (find_sys_call_table k fuel st) as [[out st1]|] eqn:Ef;
        [|discriminate].
      apply find_sys_call_table_frame in Ef.
      destruct Ef as (Hm & Ho & _ & _ & Hout).
      destruct (Z.eqb_spec out 0) as [->|Hne]; cbn [negb];
        intros r st' H; injection H as <- <-; cbn [fst];
        (split; [exact Hm|]; split; [exact Ho|]);
        [unfold EINVAL; lia | exact Hne].
    + cbn [Z.eqb negb]. intros r st' H; injection H as <- <-.
      repeat split. cbn [fst]. unfold EINVAL. lia.
Qed.

(** C7, counterexample.  Before the table base is cached, an out-of-range
    number is not answered with [-EINVAL]: [restore_syscall] answers
    [-EFAULT]. *)
Lemma unlocated_table_masks_bounds_check :
  NR_syscalls demo_kernel <= 313 /\
  restore_syscall demo_kernel 3 313 boot_state = Some (- EFAULT, boot_state) /\
  ~ rejects_out_of_range demo_kernel 3 313 0xffffffffa0002000 boot_state.
Proof.
  split; [vm_compute; discriminate|]. split; [reflexivity|].
  intros [_ [st' [H _]]]. vm_compute in H. discriminate H.
Qed.

(** On a kernel where the table cannot be located, [override_syscall]
    reports that, not the number. *)
Example override_out_of_range_on_bare_kernel :
  override_syscall bare_kernel 3 313 0xffffffffa0002000 None boot_state =
    Some (- EFAULT, None, boot_state).
Proof. reflexivity. Qed.

(** A null pointer in the slot is recorded as "no record": the second
    override takes the first one's pointer for the original. *)
Example null_slot_on_demo_kernel :
  exists r1 st1 r2 st2,
    override_syscall demo_kernel 3 5 0xffffffffa0002000 None null_table_state
      = Some (0, r1, st1) /\
    override_syscall demo_kernel 3 5 0xffffffffa0003000 None st1
      = Some (0, r2, st2) /\
    overridden_syscall st1 5 = 0 /\
    overridden_syscall st2 5 = 0xffffffffa0002000.
Proof.
  assert (Ht : syscall_table_ptr null_table_state <> 0)
    by (vm_compute; discriminate).
  assert (Hn : 5 <= __NR_syscall_max demo_kernel) by (vm_compute; discriminate).
  assert (Hp : patchable (slot_addr (syscall_table_ptr null_table_state) 5))
    by (vm_compute; split; reflexivity).
  destruct (null_slot_is_recaptured 3 (le_n 3) demo_kernel 5
              0xffffffffa0002000 0xffffffffa0003000 null_table_state
              Ht Hn Hp eq_refl eq_refl)
    as (r1 & st1 & r2 & st2 & H1 & H2 & H3 & H4).
  exists r1, st1, r2, st2. repeat (split; [assumption|]). exact H4.
Qed.

(** C6, counterexample.  Syscall 5 of [located_state] was overridden with
    [0xffffffffa0002000], which is what its slot now holds; a second
    override does not hand that pointer back. *)
Lemma second_override_does_not_return_previous :
  read_slot overridden_once_state 5 = 0xffffffffa0002000 /\
  ~ override_returns_previous demo_kernel 3 5 0xffffffffa0003000
      overridden_once_state.
Proof.
  split; [vm_compute; reflexivity|].
  intros [st' H]. vm_compute in H. discriminate H.
Qed.

(** ** Protection state after the public operations, on the demo kernel *)

(** C1, evaluated on the demo kernel.  [override_symbol_ng] on [printk],
    whose page starts out read-only, returns an instance flagged
    [mem_protected] while the page is writable; [restore_symbol_ng] on that
    instance leaves the page writable as well; and [restore_syscall] on
    syscall 5, whose slot [override_syscall] had left read-only, leaves
    the slot's page writable. *)
Theorem public_operations_leave_pages_writable :
  let printk := kallsyms_lookup_name demo_kernel "printk" in
  let slot := slot_addr (syscall_table_ptr overridden_once_state) 5 in
  page_writable (pgtable boot_state) printk = false /\
  (exists sym st1 st2,
     override_symbol_ng demo_kernel true 3 "printk" 0xffffffffa0001000
       boot_state = Some (Ok sym, st1) /\
     mem_protected sym = true /\
     page_writable (pgtable st1) printk = true /\
     restore_symbol_ng 3 sym st1 = Some (0, st2) /\
     page_writable (pgtable st2) printk = true) /\
  page_writable (pgtable overridden_once_state) slot = false /\
  (exists st',
     restore_syscall demo_kernel 3 5 overridden_once_state = Some (0, st') /\
     page_writable (pgtable st') slot = true).
Proof.
  cbv zeta.
  split; [reflexivity|]. split; [|split; [reflexivity|]].
  - assert (Hp : patchable (kallsyms_lookup_name demo_kernel "printk"))
      by (vm_compute; split; reflexivity).
    destruct (override_symbol_ng_result 3 (le_n 3) demo_kernel "printk"
                0xffffffffa0001000 boot_state Hp)
      as (sym & st1 & Hrun & Ho & _ & Hflag & Hw).
    assert (Hp' : patchable (org_sym_ptr sym)) by (rewrite Ho; exact Hp).
    destruct (restore_symbol_ng_result 3 (le_n 3) sym st1 Hp')
      as (st2 & Hres & Hw2).
    exists sym, st1, st2. rewrite Ho in Hw2. auto.
  - eexists. split; [vm_compute; reflexivity|]. vm_compute. reflexivity.
Qed.

(** ** The range the protection calls are asked for, on the demo kernel *)

(** Patching [ata_port_probe] asks for 12 bytes from 8 bytes below a page
    boundary.  The specification's frame list and the count the debug line
    prints both name two pages; the second one is still read-only after
    [set_mem_rw]. *)
Lemma second_frame_of_range_skipped :
  let vaddr := kallsyms_lookup_name demo_kernel "ata_port_probe" in
  spec_frames vaddr 12 = [0xffffffff81400000; 0xffffffff81401000] /\
  NUM_PAGES_BETWEEN vaddr (vaddr + 12) = 2 /\
  exists st',
    set_mem_rw 3 vaddr 12 boot_state = Some st' /\
    page_writable (pgtable st') 0xffffffff81400000 = true /\
    page_writable (pgtable st') 0xffffffff81401000 = false.
Proof.
  cbv zeta. split; [reflexivity|]. split; [reflexivity|].
  eexists. split; [reflexivity|]. split; reflexivity.
Qed.

(** Enabling the override of [ata_port_probe] stores its last four bytes
    into the page the protection call did not open. *)
Example straddling_patch_reaches_protected_page :
  let org := org_sym_ptr straddling_inst in
  get_ov_symbol_instance demo_kernel true "ata_port_probe" 0xffffffffa0001000
    = Ok straddling_inst /\
  lookup_address (org + 11) = lookup_address org + 1 /\
  exists sym st1,
    __enable_symbol_override 3 straddling_inst boot_state = Some (0, sym, st1) /\
    stores st1 = [(org, OVERRIDE_JUMP_SIZE)] /\
    page_writable (pgtable st1) org = true /\
    page_writable (pgtable st1) (org + 11) = false.
Proof.
  cbv zeta. split; [reflexivity|]. split; [reflexivity|].
  do 2 eexists. split; [reflexivity|]. repeat split.
Qed.

(** ** Locating on demand *)

(** An [override_syscall] that finds no cached table base behaves as on
    the state the locator leaves, once the locator has succeeded. *)
Lemma override_syscall_after_locate (k : kernel) (fuel : nat) (n p : Z)
    (c : option Z) (st st1 : kstate) :
  syscall_table_ptr st = 0 ->
  find_sys_call_table k fuel st = Some (0, st1) ->
  syscall_table_ptr st1 <> 0 ->
  override_syscall k fuel n p c st = override_syscall k fuel n p c st1.
Proof.
  intros Hz Hf Hnz. unfold override_syscall.
  rewrite Hz, Hf. cbn [Z.eqb].
  destruct (Z.eqb_spec (syscall_table_ptr st1) 0) as [E|_]; [contradiction|].
  reflexivity.
Qed.

(** With the table symbol exported the locator needs no scan. *)
Lemma locator_uses_exported_symbol (k : kernel) (fuel : nat) (st : kstate) :
  kallsyms_lookup_name k "sys_call_table" <> 0 ->
  find_sys_call_table k fuel st =
    Some (0, set_syscall_table_ptr st (kallsyms_lookup_name k "sys_call_table")).
Proof.
  intros H. unfold find_sys_call_table.
  destruct (Z.eqb_spec (kallsyms_lookup_name k "sys_call_table") 0) as [E|_];
    [contradiction | reflexivity].
Qed.

(** ** Syscall table locator *)

Lemma wrap64_range (x : Z) : 0 <= wrap64 x < 2 ^ 64.
Proof. unfold wrap64. apply Z.mod_pos_bound. lia. Qed.

(** The stride keeps the candidate's residue modulo the pointer size. *)
Lemma wrap64_stride_residue (i : Z) :
  wrap64 (i + PTR_SIZE) mod PTR_SIZE = i mod PTR_SIZE.
Proof.
  unfold wrap64, PTR_SIZE.
  rewrite Z.mod_mod_divide by (exists (2 ^ 61); reflexivity).
  replace (i + 8) with (i + 1 * 8) by lia. apply Z.mod_add. lia.
Qed.

(** The loop condition [i < ULONG_MAX] can only fail on a candidate that
    is 7 modulo 8; a scan on any other residue that meets no match keeps
    going, round the top of the address space, for ever. *)
Lemma scan_loop_never_leaves (fuel : nat) (m : memory) (c o r w i : Z) :
  0 <= i < 2 ^ 64 -> i mod PTR_SIZE <> 7 ->
  (forall j, table_matches m j c o r w = false) ->
  scan_loop fuel m c o r w i = None.
Proof.
  intros Hi Hr Hno. revert i Hi Hr.
  induction fuel as [|fuel IH]; intros i Hi Hr; [reflexivity|].
  cbn [scan_loop].
  assert (Hlt : (i <? ULONG_MAX) = true).
  { apply Z.ltb_lt. unfold ULONG_MAX.
    destruct (Z.eq_dec i (2 ^ 64 - 1)) as [->|Hne]; [|lia].
    exfalso. apply Hr. reflexivity. }
  rewrite Hlt, Hno.
  apply IH.
  - apply wrap64_range.
  - now rewrite wrap64_stride_residue.
Qed.

(** On the residue 7 the scan does reach [ULONG_MAX] and gives up. *)
Lemma scan_loop_exhausts (m : memory) (c o r w i : Z) :
  0 <= i <= ULONG_MAX -> i mod PTR_SIZE = 7 ->
  (forall j, table_matches m j c o r w = false) ->
  exists fuel, scan_loop fuel m c o r w i = Some None.
Proof.
  intros Hi Hr Hno.
  assert (Hn : exists n : nat, ULONG_MAX - i < PTR_SIZE * Z.of_nat n).
  { exists (Z.to_nat (ULONG_MAX - i + 1)). unfold PTR_SIZE. lia. }
  destruct Hn as [n Hn]. revert i Hi Hr Hn.
  induction n as [|n IH]; intros i Hi Hr Hn.
  - unfold PTR_SIZE in Hn. lia.
  - destruct (Z.eq_dec i ULONG_MAX) as [->|Hne].
    + exists 1%nat. reflexivity.
    + assert (Hstep : i + PTR_SIZE <= ULONG_MAX).
      { unfold PTR_SIZE, ULONG_MAX in *.
        pose proof (Z.div_mod i 8 ltac:(lia)) as Hd.
        replace (2 ^ 64 - 1) with (8 * (2 ^ 61 - 1) + 7) in * by reflexivity.
        lia. }
      destruct (IH (i + PTR_SIZE)) as [fuel Hf].
      * unfold PTR_SIZE in *. lia.
      * unfold PTR_SIZE in *.
        replace (i + 8) with (i + 1 * 8) by lia. rewrite Z.mod_add by lia.
        exact Hr.
      * unfold PTR_SIZE in *. lia.
      * exists (S fuel). cbn [scan_loop].
        replace (i <? ULONG_MAX) with true by (symmetry; apply Z.ltb_lt; lia).
        rewrite Hno.
        rewrite wrap64_small by (unfold ULONG_MAX, PTR_SIZE in *; lia).
        exact Hf.
Qed.

(** The scan returns the first candidate, counted in strides from the
    start, on which all four slots match. *)
Lemma scan_loop_finds (m : memory) (c o r w i : Z) (j extra : nat) :
  0 <= i -> i + PTR_SIZE * Z.of_nat j < ULONG_MAX ->
  (forall t : nat, (t < j)%nat ->
     table_matches m (i + PTR_SIZE * Z.of_nat t) c o r w = false) ->
  table_matches m (i + PTR_SIZE * Z.of_nat j) c o r w = true ->
  scan_loop (S j + extra) m c o r w i = Some (Some (i + PTR_SIZE * Z.of_nat j)).
Proof.
  revert i. induction j as [|j IH]; intros i Hi Hb Hno Hyes.
  - cbn [scan_loop Nat.add]. unfold PTR_SIZE in *.
    replace (i + 8 * Z.of_nat 0) with i in * by lia.
    replace (i <? ULONG_MAX) with true by (symmetry; apply Z.ltb_lt; lia).
    now rewrite Hyes.
  - cbn [scan_loop Nat.add]. unfold PTR_SIZE in *.
    replace (i <? ULONG_MAX) with true by (symmetry; apply Z.ltb_lt; lia).
    specialize (Hno 0%nat ltac:(lia)) as H0.
    replace (i + 8 * Z.of_nat 0) with i in H0 by lia. rewrite H0.
    rewrite wrap64_small by (unfold ULONG_MAX in *; lia).
    replace (i + 8 * Z.of_nat (S j)) with ((i + 8) + 8 * Z.of_nat j) in * by lia.
    apply (IH (i + 8)); try lia; try assumption.
    intros t Ht. specialize (Hno (S t) ltac:(lia)).
    replace (i + 8 * Z.of_nat (S t)) with (i + 8 + 8 * Z.of_nat t) in Hno by lia.
    exact Hno.
Qed.

Lemma scan_start_is_one_of (c o r w : Z) :
  scan_start c o r w = c \/ scan_start c o r w = o \/
  scan_start c o r w = r \/ scan_start c o r w = w.
Proof.
  unfold scan_start.
  repeat match goal with
         | |- context [if ?a <? ?b then _ else _] => destruct (a <? b)
         end; auto.
Qed.

(** The locator fails with [-EFAULT] as soon as one probe symbol does not
    resolve (and the table symbol does not either). *)
Lemma locator_probe_missing (k : kernel) (fuel : nat) (st : kstate) :
  kallsyms_lookup_name k "sys_call_table" = 0 ->
  kallsyms_lookup_name k "sys_close" = 0 \/
  kallsyms_lookup_name k "sys_open" = 0 \/
  kallsyms_lookup_name k "sys_read" = 0 \/
  kallsyms_lookup_name k "sys_write" = 0 ->
  find_sys_call_table k fuel st = Some (- EFAULT, set_syscall_table_ptr st 0).
Proof.
  intros Ht Hp. unfold find_sys_call_table. rewrite Ht. cbn [Z.eqb negb].
  replace (_ || _ || _ || _) with true; [reflexivity|].
  symmetry. rewrite !orb_true_iff, !Z.eqb_eq. tauto.
Qed.

(** C5, on the code.  With no exported table, all four probes resolved to
    64-bit addresses, a scan start that is not 7 modulo 8 (handler
    addresses are aligned, so this is the usual case) and no matching
    table anywhere in memory, the locator does not return, whatever fuel
    it is given: the scan steps over [ULONG_MAX] and starts again from the
    bottom of the address space. *)
Theorem locator_scan_never_gives_up (k : kernel) (fuel : nat) (st : kstate) :
  let c := kallsyms_lookup_name k "sys_close" in
  let o := kallsyms_lookup_name k "sys_open" in
  let r := kallsyms_lookup_name k "sys_read" in
  let w := kallsyms_lookup_name k "sys_write" in
  kallsyms_lookup_name k "sys_call_table" = 0 ->
  kernel_pointer c -> kernel_pointer o -> kernel_pointer r ->
  kernel_pointer w ->
  scan_start c o r w mod PTR_SIZE <> 7 ->
  (forall j, table_matches (mem st) j c o r w = false) ->
  find_sys_call_table k fuel st = None.
Proof.
  intros c o r w Ht Hc Ho Hr Hw Hres Hno. unfold kernel_pointer in *.
  unfold find_sys_call_table. rewrite Ht. cbn [Z.eqb negb].
  fold c o r w.
  replace ((c =? 0) || (o =? 0) || (r =? 0) || (w =? 0)) with false.
  2:{ symmetry. rewrite !orb_false_iff, !Z.eqb_neq. lia. }
  cbn [mem set_syscall_table_ptr].
  rewrite scan_loop_never_leaves; try assumption; [reflexivity|].
  destruct (scan_start_is_one_of c o r w) as [E|[E|[E|E]]]; rewrite E; lia.
Qed.

(** When the scan start is 7 modulo 8 the claimed failure does happen. *)
Lemma locator_gives_up_on_residue_7 (k : kernel) (st : kstate) :
  let c := kallsyms_lookup_name k "sys_close" in
  let o := kallsyms_lookup_name k "sys_open" in
  let r := kallsyms_lookup_name k "sys_read" in
  let w := kallsyms_lookup_name k "sys_write" in
  kallsyms_lookup_name k "sys_call_table" = 0 ->
  kernel_pointer c -> kernel_pointer o -> kernel_pointer r ->
  kernel_pointer w ->
  scan_start c o r w mod PTR_SIZE = 7 ->
  (forall j, table_matches (mem st) j c o r w = false) ->
  exists fuel,
    find_sys_call_table k fuel st = Some (- EFAULT, set_syscall_table_ptr st 0).
Proof.
  intros c o r w Ht Hc Ho Hr Hw Hres Hno. unfold kernel_pointer in *.
  destruct (scan_loop_exhausts (mem st) c o r w (scan_start c o r w))
    as [fuel Hf]; try assumption.
  { unfold ULONG_MAX.
    destruct (scan_start_is_one_of c o r w) as [E|[E|[E|E]]]; rewrite E; lia. }
  exists fuel. unfold find_sys_call_table. rewrite Ht. cbn [Z.eqb negb].
  fold c o r w.
  replace ((c =? 0) || (o =? 0) || (r =? 0) || (w =? 0)) with false.
  2:{ symmetry. rewrite !orb_false_iff, !Z.eqb_neq. lia. }
  cbn [mem set_syscall_table_ptr]. rewrite Hf. reflexivity.
Qed.

(** ** Failures of creation *)


(** ** The last page of the address space *)

Lemma pte_loop_from_bottom_last_page (op : Z -> Z) (fuel : nat) (vaddr : Z)
    (pt : pagetable) :
  2 ^ 64 - PAGE_SIZE <= vaddr < 2 ^ 64 ->
  pte_loop op fuel vaddr (PAGE_ALIGN_BOTTOM vaddr) pt = None.
Proof.
  change PAGE_SIZE with 4096. intros Hv.
  assert (Hb : PAGE_ALIGN_BOTTOM vaddr = 2 ^ 64 - 4096 \/
               PAGE_ALIGN_BOTTOM vaddr = 2 ^ 64 - 8192).
  { destruct (Z.eq_dec vaddr (2 ^ 64 - 4096)) as [->|Hne].
    - right. reflexivity.
    - left. apply PAGE_ALIGN_BOTTOM_last_page. change PAGE_SIZE with 4096. lia. }
  apply pte_loop_last_page; change PAGE_SIZE with 4096.
  - lia.
  - destruct Hb as [-> | ->]; lia.
  - destruct Hb as [-> | ->]; reflexivity.
Qed.

(** For an address in the last page of the address space neither
    protection call returns, whatever fuel it is given ([addr += PAGE_SIZE]
    wraps to 0 and the loop condition stays true); enabling an override of
    a symbol there therefore never returns either. *)
Theorem protection_never_returns_on_last_page (fuel : nat) (vaddr len : Z)
    (sym : override_symbol_inst) (st : kstate) :
  2 ^ 64 - PAGE_SIZE <= vaddr < 2 ^ 64 ->
  org_sym_ptr sym = vaddr -> installed sym = false ->
  mem_protected sym = true ->
  set_mem_rw fuel vaddr len st = None /\
  set_mem_ro fuel vaddr len st = None /\
  __enable_symbol_override fuel sym st = None.
Proof.
  intros Hv Ho Hi Hm.
  assert (Hrw : forall l s, set_mem_rw fuel vaddr l s = None).
  { intros l s. unfold set_mem_rw.
    now rewrite pte_loop_from_bottom_last_page. }
  split; [apply Hrw|]. split.
  - unfold set_mem_ro. now rewrite pte_loop_from_bottom_last_page.
  - unfold __enable_symbol_override, unprotect_if_needed,
      disable_mem_protection.
    rewrite Hi.
    destruct (has_trampoline sym);
      cbn [mem_protected org_sym_ptr prepare_trampoline];
      rewrite Hm, Ho, Hrw; reflexivity.
Qed.

(** ** The locator, when it answers *)

(** Fallback scan: with no exported table and the four probes resolved,
    if the first candidate (counted in pointer-sized strides from the
    lowest probe address) whose four slots match is the [j]-th, the locator
    returns 0 with exactly that address cached, given more than [j] rounds
    of fuel; it changes nothing else. *)
Theorem locator_scan_returns_first_match (k : kernel) (st : kstate)
    (j extra : nat) :
  let c := kallsyms_lookup_name k "sys_close" in
  let o := kallsyms_lookup_name k "sys_open" in
  let r := kallsyms_lookup_name k "sys_read" in
  let w := kallsyms_lookup_name k "sys_write" in
  let start := scan_start c o r w in
  kallsyms_lookup_name k "sys_call_table" = 0 ->
  kernel_pointer c -> kernel_pointer o -> kernel_pointer r ->
  kernel_pointer w ->
  start + PTR_SIZE * Z.of_nat j < ULONG_MAX ->
  (forall t : nat, (t < j)%nat ->
     table_matches (mem st) (start + PTR_SIZE * Z.of_nat t) c o r w = false) ->
  table_matches (mem st) (start + PTR_SIZE * Z.of_nat j) c o r w = true ->
  exists st',
    find_sys_call_table k (S j + extra) st = Some (0, st') /\
    syscall_table_ptr st' = start + PTR_SIZE * Z.of_nat j /\
    mem st' = mem st /\ pgtable st' = pgtable st /\
    overridden_syscall st' = overridden_syscall st /\
    stores st' = stores st.
Proof.
  intros c o r w start Ht Hc Ho Hr Hw Hb Hno Hyes.
  unfold kernel_pointer in *.
  unfold find_sys_call_table. rewrite Ht. cbn [Z.eqb negb].
  fold c o r w. fold start.
  replace ((c =? 0) || (o =? 0) || (r =? 0) || (w =? 0)) with false.
  2:{ symmetry. rewrite !orb_false_iff, !Z.eqb_neq. lia. }
  cbn [mem set_syscall_table_ptr].
  rewrite scan_loop_finds; try assumption.
  - eexists. split; [reflexivity|]. repeat split.
  - subst start.
    destruct (scan_start_is_one_of c o r w) as [E|[E|[E|E]]]; rewrite E; lia.
Qed.

(** Locating on demand: with no cached base and [sys_call_table]
    exported, [override_syscall] caches the exported address and
    overrides the slot in the same call, while [restore_syscall] on the
    same state does not locate and answers [-EFAULT]. *)
Theorem override_syscall_locates_on_demand (k : kernel) (fuel : nat)
    (n p : Z) (c : option Z) (st : kstate) :
  (3 <= fuel)%nat ->
  syscall_table_ptr st = 0 ->
  kallsyms_lookup_name k "sys_call_table" <> 0 ->
  n <= __NR_syscall_max k ->
  patchable (slot_addr (kallsyms_lookup_name k "sys_call_table") n) ->
  exists r st',
    override_syscall k fuel n p c st = Some (0, r, st') /\
    syscall_table_ptr st' = kallsyms_lookup_name k "sys_call_table" /\
    read_slot st' n = wrap64 p /\
    restore_syscall k fuel n st = Some (- EFAULT, st).
Proof.
  intros Hf Hz Hsym Hn Hp.
  set (tbl := kallsyms_lookup_name k "sys_call_table") in *.
  set (st1 := set_syscall_table_ptr st tbl).
  assert (Hloc : find_sys_call_table k fuel st = Some (0, st1))
    by (now apply locator_uses_exported_symbol).
  assert (Hnz : syscall_table_ptr st1 <> 0) by exact Hsym.
  rewrite (override_syscall_after_locate k fuel n p c st st1 Hz Hloc Hnz).
  rewrite (override_syscall_located fuel Hf k n p c st1 Hnz Hn Hp).
  destruct (after_override_facts st1 n p) as (T & _ & S & _).
  do 2 eexists. split; [reflexivity|]. split; [exact T|].
  split; [exact S|].
  unfold restore_syscall. now rewrite Hz.
Qed.

(** With neither the table nor all four probes resolvable, the locator
    fails with [-EFAULT] without scanning (so for any fuel), and
    [override_syscall] passes the failure on for every number, valid or
    not: the out-parameter, memory, page table and registry are untouched
    and the cached base stays null. *)
Theorem override_fails_without_probes (k : kernel) (fuel : nat) (n p : Z)
    (c : option Z) (st : kstate) :
  syscall_table_ptr st = 0 ->
  kallsyms_lookup_name k "sys_call_table" = 0 ->
  kallsyms_lookup_name k "sys_close" = 0 \/
  kallsyms_lookup_name k "sys_open" = 0 \/
  kallsyms_lookup_name k "sys_read" = 0 \/
  kallsyms_lookup_name k "sys_write" = 0 ->
  exists st',
    find_sys_call_table k fuel st = Some (- EFAULT, st') /\
    override_syscall k fuel n p c st = Some (- EFAULT, c, st') /\
    syscall_table_ptr st' = 0 /\ mem st' = mem st /\
    pgtable st' = pgtable st /\
    overridden_syscall st' = overridden_syscall st /\
    stores st' = stores st.
Proof.
  intros Hz Ht Hprobe.
  pose proof (locator_probe_missing k fuel st Ht Hprobe) as Hloc.
  eexists. split; [exact Hloc|]. split; [|repeat split].
  unfold override_syscall. rewrite Hz, Hloc. reflexivity.
Qed.

(** ** The debug dump *)

Lemma wrap32_small (x : Z) : 0 <= x < 2 ^ 32 -> wrap32 x = x.
Proof. intros H. unfold wrap32. now apply Z.mod_small. Qed.

Lemma wrap32_below (x : Z) : - 2 ^ 32 <= x < 0 -> wrap32 x = x + 2 ^ 32.
Proof.
  intros H. unfold wrap32.
  replace x with (x + 2 ^ 32 + (-1) * 2 ^ 32) at 1 by lia.
  rewrite Z.mod_add by lia. apply Z.mod_small. lia.
Qed.

Lemma wrap32_above (x : Z) : 2 ^ 32 <= x < 2 * 2 ^ 32 -> wrap32 x = x - 2 ^ 32.
Proof.
  intros H. unfold wrap32.
  replace x with (x - 2 ^ 32 + 1 * 2 ^ 32) at 1 by lia.
  rewrite Z.mod_add by lia. apply Z.mod_small. lia.
Qed.

Lemma print_syscall_table_in_window (k : kernel) (st : kstate)
    (from to i v : Z) :
  In (i, v) (print_syscall_table k st from to) ->
  from <= i < to /\ to <= __NR_syscall_max k /\ v = read_slot st i.
Proof.
  unfold print_syscall_table.
  destruct (syscall_table_ptr st =? 0); [intros []|].
  destruct (Z.ltb_spec from 0); cbn [orb]; [intros []|].
  destruct (Z.ltb_spec (__NR_syscall_max k) to); cbn [orb]; [intros []|].
  destruct (Z.ltb_spec to from); [intros []|].
  rewrite map_map. intros Hin. apply in_map_iff in Hin.
  destruct Hin as (d & Heq & Hd). apply in_seq in Hd.
  injection Heq as <- <-. repeat split; lia.
Qed.

(** The dump [override_syscall] and [restore_syscall] ask for around
    number [n] is empty for the five lowest numbers (the window's lower
    end wraps in [unsigned int]) and whenever [n + 5] is above
    [__NR_syscall_max]; otherwise it lists the ten slots [n - 5 .. n + 4].
    Every slot it reads is inside the table, and the table's last slot is
    never listed. *)
Theorem dump_around_window (k : kernel) (st : kstate) (n : Z) :
  syscall_table_ptr st <> 0 ->
  0 <= n < 2 ^ 32 -> __NR_syscall_max k < 2 ^ 32 ->
  dump_around k st n =
    (if (n <? 5) || (__NR_syscall_max k <? n + 5) then []
     else map (fun d => (n - 5 + Z.of_nat d, read_slot st (n - 5 + Z.of_nat d)))
              (seq 0 10)) /\
  forall i v, In (i, v) (dump_around k st n) ->
    0 <= i < __NR_syscall_max k /\ n - 5 <= i < n + 5 /\ v = read_slot st i.
Proof.
  intros Ht Hn Hmax.
  assert (Hform : dump_around k st n =
    (if (n <? 5) || (__NR_syscall_max k <? n + 5) then []
     else map (fun d => (n - 5 + Z.of_nat d, read_slot st (n - 5 + Z.of_nat d)))
              (seq 0 10))).
  { unfold dump_around, print_syscall_table.
    destruct (Z.eqb_spec (syscall_table_ptr st) 0) as [E|_]; [contradiction|].
    destruct (Z.ltb_spec n 5) as [Hlo|Hhi]; cbn [orb].
    - rewrite (wrap32_below (n - 5)) by lia.
      rewrite (wrap32_small (n + 5)) by lia.
      destruct (Z.ltb_spec (n - 5 + 2 ^ 32) 0); [lia|]. cbn [orb].
      destruct (Z.ltb_spec (__NR_syscall_max k) (n + 5)); [reflexivity|].
      cbn [orb].
      destruct (Z.ltb_spec (n + 5) (n - 5 + 2 ^ 32)); [reflexivity | lia].
    - rewrite (wrap32_small (n - 5)) by lia.
      destruct (Z.ltb_spec (n - 5) 0); [lia|]. cbn [orb].
      destruct (Z.lt_ge_cases (n + 5) (2 ^ 32)) as [Hin|Hout].
      + rewrite (wrap32_small (n + 5)) by lia.
        destruct (Z.ltb_spec (__NR_syscall_max k) (n + 5)); [reflexivity|].
        cbn [orb].
        destruct (Z.ltb_spec (n + 5) (n - 5)); [lia|].
        replace (n + 5 - (n - 5)) with 10 by lia.
        rewrite map_map. reflexivity.
      + rewrite (wrap32_above (n + 5)) by lia.
        destruct (Z.ltb_spec (__NR_syscall_max k) (n + 5)); [|lia].
        destruct (Z.ltb_spec (__NR_syscall_max k) (n + 5 - 2 ^ 32));
          [reflexivity|]. cbn [orb].
        destruct (Z.ltb_spec (n + 5 - 2 ^ 32) (n - 5)); [reflexivity | lia]. }
  split; [exact Hform|].
  intros i v Hin. rewrite Hform in Hin.
  destruct (Z.ltb_spec n 5) as [Hlo|Hhi]; cbn [orb] in Hin; [destruct Hin|].
  destruct (Z.ltb_spec (__NR_syscall_max k) (n + 5)); [destruct Hin|].
  apply in_map_iff in Hin. destruct Hin as (d & Heq & Hd).
  apply in_seq in Hd. injection Heq as <- <-. repeat split; lia.
Qed.

(** ** The theorems at concrete inputs *)

Lemma demo_inst_is_created :
  get_ov_symbol_instance demo_kernel true "printk" 0xffffffffa0001000
    = Ok demo_inst.
Proof. reflexivity. Qed.

Ltac in_range := vm_compute; split; reflexivity.

(** [ata_port_probe] sits 8 bytes below a page boundary, so the 12 bytes
    patched there run into the next page, which both calls leave alone. *)
Lemma set_mem_stops_at_vaddr_page_witness :
  patchable 0xffffffff81400ff8 /\ (3 <= 3)%nat /\
  lookup_address 0xffffffff81400ff8 < lookup_address (0xffffffff81400ff8 + 12) /\
  exists st_rw st_ro,
    set_mem_rw 3 0xffffffff81400ff8 12 boot_state = Some st_rw /\
    set_mem_ro 3 0xffffffff81400ff8 12 boot_state = Some st_ro /\
    page_writable (pgtable st_rw) 0xffffffff81400ff8 = true /\
    page_writable (pgtable st_ro) 0xffffffff81400ff8 = false /\
    forall p, lookup_address 0xffffffff81400ff8 < p ->
      pgtable st_rw p = pgtable boot_state p /\
      pgtable st_ro p = pgtable boot_state p.
Proof.
  split; [in_range|]. split; [apply le_n|]. split; [reflexivity|].
  apply (set_mem_stops_at_vaddr_page 3 (le_n 3) 0xffffffff81400ff8 12
           boot_state).
  in_range.
Defined.

Lemma registry_first_write_wins_witness :
  syscall_table_ptr located_state <> 0 /\
  5 <= __NR_syscall_max demo_kernel /\
  patchable (slot_addr (syscall_table_ptr located_state) 5) /\
  (3 <= 3)%nat /\
  overridden_syscall located_state 5 = 0 /\
  kernel_pointer (read_slot located_state 5) /\
  exists r1 st1 r2 st2 st3,
    override_syscall demo_kernel 3 5 0xffffffffa0002000 None located_state
      = Some (0, r1, st1) /\
    overridden_syscall st1 5 = read_slot located_state 5 /\
    read_slot st1 5 = wrap64 0xffffffffa0002000 /\
    override_syscall demo_kernel 3 5 0xffffffffa0003000 None st1
      = Some (0, r2, st2) /\
    overridden_syscall st2 = overridden_syscall st1 /\
    read_slot st2 5 = wrap64 0xffffffffa0003000 /\
    restore_syscall demo_kernel 3 5 st2 = Some (0, st3) /\
    read_slot st3 5 = read_slot located_state 5 /\
    overridden_syscall st3 = overridden_syscall st1.
Proof.
  assert (H1 : syscall_table_ptr located_state <> 0) by (vm_compute; discriminate).
  assert (H2 : 5 <= __NR_syscall_max demo_kernel) by (vm_compute; discriminate).
  assert (H3 : patchable (slot_addr (syscall_table_ptr located_state) 5))
    by in_range.
  assert (H5 : overridden_syscall located_state 5 = 0) by reflexivity.
  assert (H6 : kernel_pointer (read_slot located_state 5)) by in_range.
  repeat (split; [assumption || apply le_n|]).
  exact (registry_first_write_wins 3 (le_n 3) demo_kernel 5
           0xffffffffa0002000 0xffffffffa0003000 None None located_state
           H1 H2 H3 H5 H6).
Defined.

Lemma enable_disable_round_trip_witness :
  inst_wf demo_inst /\ patchable (org_sym_ptr demo_inst) /\ (3 <= 3)%nat /\
  exists sym1 st1 sym2 st2,
    __enable_symbol_override 3 demo_inst boot_state = Some (0, sym1, st1) /\
    __disable_symbol_override 3 sym1 st1 = Some (0, sym2, st2) /\
    installed sym1 = true /\ installed sym2 = false /\
    org_sym_ptr sym2 = org_sym_ptr demo_inst /\
    load_bytes (mem st2) (org_sym_ptr demo_inst) OVERRIDE_JUMP_SIZE =
      org_sym_code sym2 /\
    org_sym_code sym2 =
      (if has_trampoline demo_inst || installed demo_inst
       then org_sym_code demo_inst
       else load_bytes (mem boot_state) (org_sym_ptr demo_inst)
              OVERRIDE_JUMP_SIZE).
Proof.
  assert (H1 : inst_wf demo_inst) by (split; reflexivity).
  assert (H2 : patchable (org_sym_ptr demo_inst)) by in_range.
  split; [exact H1|]. split; [exact H2|]. split; [apply le_n|].
  exact (enable_disable_round_trip 3 (le_n 3) demo_inst boot_state H1 H2).
Defined.

Lemma locator_scan_never_gives_up_witness :
  kallsyms_lookup_name scan_kernel "sys_call_table" = 0 /\
  scan_start (kallsyms_lookup_name scan_kernel "sys_close")
             (kallsyms_lookup_name scan_kernel "sys_open")
             (kallsyms_lookup_name scan_kernel "sys_read")
             (kallsyms_lookup_name scan_kernel "sys_write") mod PTR_SIZE = 0 /\
  find_sys_call_table scan_kernel 64 blank_state = None.
Proof.
  split; [reflexivity|]. split; [reflexivity|].
  apply (locator_scan_never_gives_up scan_kernel 64 blank_state);
    [ reflexivity | in_range | in_range | in_range | in_range
    | vm_compute; discriminate
    | intros j; reflexivity ].
Defined.

Lemma override_returns_recorded_original_witness :
  syscall_table_ptr overridden_once_state <> 0 /\
  5 <= __NR_syscall_max demo_kernel /\
  patchable (slot_addr (syscall_table_ptr overridden_once_state) 5) /\
  (3 <= 3)%nat /\
  exists v st',
    override_syscall demo_kernel 3 5 0xffffffffa0003000 (Some 0)
      overridden_once_state = Some (0, Some v, st') /\
    v = overridden_syscall st' 5 /\
    v = (if overridden_syscall overridden_once_state 5 =? 0
         then read_slot overridden_once_state 5
         else overridden_syscall overridden_once_state 5).
Proof.
  assert (H1 : syscall_table_ptr overridden_once_state <> 0)
    by (vm_compute; discriminate).
  assert (H2 : 5 <= __NR_syscall_max demo_kernel) by (vm_compute; discriminate).
  assert (H3 : patchable (slot_addr (syscall_table_ptr overridden_once_state) 5))
    by in_range.
  repeat (split; [assumption || apply le_n|]).
  exact (override_returns_recorded_original 3 (le_n 3) demo_kernel 5
           0xffffffffa0003000 0 overridden_once_state H1 H2 H3).
Defined.

Lemma out_of_range_number_rejected_witness :
  NR_syscalls demo_kernel <= 313 /\
  restore_syscall demo_kernel 3 313 located_state =
    Some (- EINVAL, located_state) /\
  override_syscall demo_kernel 3 313 0xffffffffa0002000 None located_state =
    Some (- EINVAL, None, located_state).
Proof.
  assert (H : NR_syscalls demo_kernel <= 313) by (vm_compute; discriminate).
  split; [exact H|].
  destruct (out_of_range_number_rejected demo_kernel 3 313 0xffffffffa0002000
              None located_state H) as (Hr & Ho & _).
  split; [exact Hr | exact Ho].
Defined.

Lemma enable_disable_idempotent_witness :
  inst_wf demo_inst /\ installed demo_inst = false /\
  patchable (org_sym_ptr demo_inst) /\ (3 <= 3)%nat /\
  exists sym1 st1 sym2 st2,
    __enable_symbol_override 3 demo_inst boot_state = Some (0, sym1, st1) /\
    __enable_symbol_override 3 sym1 st1 = Some (0, sym1, st1) /\
    stores st1 = (org_sym_ptr demo_inst, OVERRIDE_JUMP_SIZE) :: stores boot_state /\
    __disable_symbol_override 3 sym1 st1 = Some (0, sym2, st2) /\
    __disable_symbol_override 3 sym2 st2 = Some (0, sym2, st2) /\
    stores st2 = (org_sym_ptr demo_inst, OVERRIDE_JUMP_SIZE) :: stores st1 /\
    __disable_symbol_override 3 demo_inst boot_state = Some (0, demo_inst, boot_state).
Proof.
  assert (H1 : inst_wf demo_inst) by (split; reflexivity).
  assert (H2 : patchable (org_sym_ptr demo_inst)) by in_range.
  split; [exact H1|]. split; [reflexivity|]. split; [exact H2|].
  split; [apply le_n|].
  exact (enable_disable_idempotent 3 (le_n 3) demo_inst boot_state H1 eq_refl H2).
Defined.

(** ** The further theorems at concrete inputs *)

Lemma one_shot_override_restore_round_trip_witness :
  ((3 <= 3)%nat) /\
  (patchable (kallsyms_lookup_name demo_kernel "printk")) /\
  (exists code st1 st2,
   override_symbol demo_kernel 3 "printk" 0xffffffffa0001000 boot_state =
   Some (Ok (kallsyms_lookup_name demo_kernel "printk", code), st1) /\
   code = load_bytes (mem boot_state) (kallsyms_lookup_name demo_kernel "printk") OVERRIDE_JUMP_SIZE /\
   load_bytes (mem st1) (kallsyms_lookup_name demo_kernel "printk") OVERRIDE_JUMP_SIZE =
   build_jump 0xffffffffa0001000 /\
   page_writable (pgtable st1) (kallsyms_lookup_name demo_kernel "printk") = false /\
   restore_symbol 3 (kallsyms_lookup_name demo_kernel "printk") code st1 = Some (0, st2) /\
   (forall x, mem st2 x = mem boot_state x) /\
   page_writable (pgtable st2) (kallsyms_lookup_name demo_kernel "printk") = false).
Proof.
  assert (H0 : patchable (kallsyms_lookup_name demo_kernel "printk")) by (in_range).
  split; [apply le_n|].
  split; [exact H0|].
  exact (one_shot_override_restore_round_trip 3 (le_n 3) demo_kernel "printk" 0xffffffffa0001000 boot_state H0).
Defined.


Lemma ng_override_restore_round_trip_witness :
  ((3 <= 3)%nat) /\
  (patchable (kallsyms_lookup_name demo_kernel "printk")) /\
  (exists sym st1 st2,
   override_symbol_ng demo_kernel true 3 "printk" 0xffffffffa0001000 boot_state = Some (Ok sym, st1) /\
   symbol_is_overridden (Some sym) = true /\
   __get_org_ptr sym = kallsyms_lookup_name demo_kernel "printk" /\
   load_bytes (mem st1) (kallsyms_lookup_name demo_kernel "printk") OVERRIDE_JUMP_SIZE =
   build_jump 0xffffffffa0001000 /\
   restore_symbol_ng 3 sym st1 = Some (0, st2) /\
   forall x, mem st2 x = mem boot_state x).
Proof.
  assert (H0 : patchable (kallsyms_lookup_name demo_kernel "printk")) by (in_range).
  split; [apply le_n|].
  split; [exact H0|].
  exact (ng_override_restore_round_trip 3 (le_n 3) demo_kernel "printk" 0xffffffffa0001000 boot_state H0).
Defined.

Lemma enable_disable_write_only_the_symbol_witness :
  ((3 <= 3)%nat) /\
  (inst_wf demo_inst) /\
  (patchable (org_sym_ptr demo_inst)) /\
  (exists sym1 st1 sym2 st2,
   __enable_symbol_override 3 demo_inst boot_state = Some (0, sym1, st1) /\
   __disable_symbol_override 3 sym1 st1 = Some (0, sym2, st2) /\
   (forall x, x < org_sym_ptr demo_inst \/
   org_sym_ptr demo_inst + Z.of_nat OVERRIDE_JUMP_SIZE <= x ->
   mem st1 x = mem boot_state x /\ mem st2 x = mem boot_state x) /\
   overridden_syscall st2 = overridden_syscall boot_state /\
   syscall_table_ptr st2 = syscall_table_ptr boot_state /\
   __get_org_ptr sym2 = __get_org_ptr demo_inst /\
   new_sym_ptr sym2 = new_sym_ptr demo_inst /\ name sym2 = name demo_inst).
Proof.
  assert (H0 : inst_wf demo_inst) by (split; reflexivity).
  assert (H1 : patchable (org_sym_ptr demo_inst)) by (in_range).
  split; [apply le_n|].
  split; [exact H0|].
  split; [exact H1|].
  exact (enable_disable_write_only_the_symbol 3 (le_n 3) demo_inst boot_state H0 H1).
Defined.

Lemma call_through_cycle_unprotects_once_witness :
  ((3 <= 3)%nat) /\
  (get_ov_symbol_instance demo_kernel true "printk" 0xffffffffa0001000 = Ok demo_inst) /\
  (patchable (org_sym_ptr demo_inst)) /\
  (exists sym1 st1 sym2 st2 sym3 st3,
   __enable_symbol_override 3 demo_inst boot_state = Some (0, sym1, st1) /\
   __disable_symbol_override 3 sym1 st1 = Some (0, sym2, st2) /\
   __enable_symbol_override 3 sym2 st2 = Some (0, sym3, st3) /\
   tlb_flushes st1 = S (tlb_flushes boot_state) /\
   tlb_flushes st3 = tlb_flushes st1 /\
   pgtable st2 = pgtable st1 /\ pgtable st3 = pgtable st1 /\
   mem_protected sym1 = false /\ mem_protected sym2 = false /\
   mem_protected sym3 = false /\
   page_writable (pgtable st3) (org_sym_ptr demo_inst) = true /\
   load_bytes (mem st3) (org_sym_ptr demo_inst) OVERRIDE_JUMP_SIZE =
   build_jump 0xffffffffa0001000 /\
   org_sym_code sym3 =
   load_bytes (mem boot_state) (org_sym_ptr demo_inst) OVERRIDE_JUMP_SIZE).
Proof.
  assert (H0 : get_ov_symbol_instance demo_kernel true "printk" 0xffffffffa0001000 = Ok demo_inst) by (reflexivity).
  assert (H1 : patchable (org_sym_ptr demo_inst)) by (in_range).
  split; [apply le_n|].
  split; [exact H0|].
  split; [exact H1|].
  exact (call_through_cycle_unprotects_once 3 (le_n 3) demo_kernel true "printk" 0xffffffffa0001000 demo_inst boot_state H0 H1).
Defined.

Lemma lifecycle_keeps_instance_ok_witness :
  ((3 <= 3)%nat) /\
  (inst_ok demo_inst) /\
  (patchable (org_sym_ptr demo_inst)) /\
  ((exists sym1 st1 sym2 st2,
   __enable_symbol_override 3 demo_inst boot_state = Some (0, sym1, st1) /\
   __disable_symbol_override 3 demo_inst boot_state = Some (0, sym2, st2) /\
   inst_ok sym1 /\ installed sym1 = true /\
   inst_ok sym2 /\ installed sym2 = false) /\
   (forall kern ok nm new_ptr created,
   get_ov_symbol_instance kern ok nm new_ptr = Ok created ->
   inst_ok created)).
Proof.
  assert (H0 : inst_ok demo_inst) by (split; [split; reflexivity | discriminate]).
  assert (H1 : patchable (org_sym_ptr demo_inst)) by (in_range).
  split; [apply le_n|].
  split; [exact H0|].
  split; [exact H1|].
  exact (lifecycle_keeps_instance_ok 3 (le_n 3) demo_inst boot_state H0 H1).
Defined.

Lemma set_mem_rw_opens_pages_of_vaddr_and_byte_below_witness :
  (lookup_address (0xffffffff81401000 - 1) = lookup_address 0xffffffff81401000 - 1) /\
  ((3 <= 3)%nat) /\
  (patchable 0xffffffff81401000) /\
  (exists st1,
   set_mem_rw 3 0xffffffff81401000 12 boot_state = Some st1 /\
   page_writable (pgtable st1) 0xffffffff81401000 = true /\
   page_writable (pgtable st1) (0xffffffff81401000 - 1) = true /\
   (forall p, p <> lookup_address 0xffffffff81401000 -> p <> lookup_address (0xffffffff81401000 - 1) ->
   pgtable st1 p = pgtable boot_state p) /\
   mem st1 = mem boot_state /\ tlb_flushes st1 = S (tlb_flushes boot_state)).
Proof.
  assert (H0 : patchable 0xffffffff81401000) by (in_range).
  split; [reflexivity|].
  split; [apply le_n|].
  split; [exact H0|].
  exact (set_mem_rw_opens_pages_of_vaddr_and_byte_below 3 (le_n 3) 0xffffffff81401000 12 boot_state H0).
Defined.

Lemma set_mem_ro_reverses_set_mem_rw_witness :
  ((3 <= 3)%nat) /\
  (patchable 0xffffffff81401000) /\
  (page_writable (pgtable boot_state) 0xffffffff81401000 = false) /\
  (page_writable (pgtable boot_state) (0xffffffff81401000 - 1) = false) /\
  (exists st1 st2,
   set_mem_rw 3 0xffffffff81401000 12 boot_state = Some st1 /\
   set_mem_ro 3 0xffffffff81401000 12 st1 = Some st2 /\
   (forall p, pgtable st2 p = pgtable boot_state p) /\
   mem st2 = mem boot_state /\ stores st2 = stores boot_state /\
   tlb_flushes st2 = S (S (tlb_flushes boot_state))).
Proof.
  assert (H0 : patchable 0xffffffff81401000) by (in_range).
  assert (H1 : page_writable (pgtable boot_state) 0xffffffff81401000 = false) by (reflexivity).
  assert (H2 : page_writable (pgtable boot_state) (0xffffffff81401000 - 1) = false) by (reflexivity).
  split; [apply le_n|].
  split; [exact H0|].
  split; [exact H1|].
  split; [exact H2|].
  exact (set_mem_ro_reverses_set_mem_rw 3 (le_n 3) 0xffffffff81401000 12 boot_state H0 H1 H2).
Defined.

Lemma one_shot_double_override_backs_up_the_jump_witness :
  ((3 <= 3)%nat) /\
  (patchable (kallsyms_lookup_name demo_kernel "printk")) /\
  (exists code1 st1 code2 st2 st3,
   override_symbol demo_kernel 3 "printk" 0xffffffffa0001000 boot_state =
   Some (Ok (kallsyms_lookup_name demo_kernel "printk", code1), st1) /\
   override_symbol demo_kernel 3 "printk" 0xffffffffa0002000 st1 =
   Some (Ok (kallsyms_lookup_name demo_kernel "printk", code2), st2) /\
   code2 = build_jump 0xffffffffa0001000 /\
   load_bytes (mem st2) (kallsyms_lookup_name demo_kernel "printk") OVERRIDE_JUMP_SIZE =
   build_jump 0xffffffffa0002000 /\
   restore_symbol 3 (kallsyms_lookup_name demo_kernel "printk") code2 st2 = Some (0, st3) /\
   load_bytes (mem st3) (kallsyms_lookup_name demo_kernel "printk") OVERRIDE_JUMP_SIZE =
   build_jump 0xffffffffa0001000).
Proof.
  assert (H0 : patchable (kallsyms_lookup_name demo_kernel "printk")) by (in_range).
  split; [apply le_n|].
  split; [exact H0|].
  exact (one_shot_double_override_backs_up_the_jump 3 (le_n 3) demo_kernel "printk" 0xffffffffa0001000 0xffffffffa0002000 boot_state H0).
Defined.

Lemma restore_goes_by_the_record_witness :
  ((3 <= 3)%nat) /\
  (syscall_table_ptr overridden_once_state <> 0) /\
  (5 <= __NR_syscall_max demo_kernel) /\
  (patchable (slot_addr (syscall_table_ptr overridden_once_state) 5)) /\
  (exists out st',
   restore_syscall demo_kernel 3 5 overridden_once_state = Some (out, st') /\
   (overridden_syscall overridden_once_state 5 = 0 -> out = - EINVAL /\ st' = overridden_once_state) /\
   (overridden_syscall overridden_once_state 5 <> 0 ->
   out = 0 /\
   read_slot st' 5 = wrap64 (overridden_syscall overridden_once_state 5) /\
   overridden_syscall st' = overridden_syscall overridden_once_state)).
Proof.
  assert (H0 : syscall_table_ptr overridden_once_state <> 0) by (vm_compute; discriminate).
  assert (H1 : 5 <= __NR_syscall_max demo_kernel) by (vm_compute; discriminate).
  assert (H2 : patchable (slot_addr (syscall_table_ptr overridden_once_state) 5)) by (in_range).
  split; [apply le_n|].
  split; [exact H0|].
  split; [exact H1|].
  split; [exact H2|].
  exact (restore_goes_by_the_record 3 (le_n 3) demo_kernel 5 overridden_once_state H0 H1 H2).
Defined.

Lemma syscall_override_restore_round_trip_witness :
  ((3 <= 3)%nat) /\
  (syscall_table_ptr located_state <> 0) /\
  (5 <= __NR_syscall_max demo_kernel) /\
  (patchable (slot_addr (syscall_table_ptr located_state) 5)) /\
  (overridden_syscall located_state 5 = 0) /\
  (kernel_pointer (read_slot located_state 5)) /\
  (exists r st1 st2 st3,
   override_syscall demo_kernel 3 5 0xffffffffa0002000 None located_state = Some (0, r, st1) /\
   read_slot st1 5 = wrap64 0xffffffffa0002000 /\
   restore_syscall demo_kernel 3 5 st1 = Some (0, st2) /\
   read_slot st2 5 = read_slot located_state 5 /\
   restore_syscall demo_kernel 3 5 st2 = Some (0, st3) /\
   read_slot st3 5 = read_slot located_state 5 /\
   forall x, x < slot_addr (syscall_table_ptr located_state) 5 \/
   slot_addr (syscall_table_ptr located_state) 5 + PTR_SIZE <= x ->
   mem st3 x = mem located_state x).
Proof.
  assert (H0 : syscall_table_ptr located_state <> 0) by (vm_compute; discriminate).
  assert (H1 : 5 <= __NR_syscall_max demo_kernel) by (vm_compute; discriminate).
  assert (H2 : patchable (slot_addr (syscall_table_ptr located_state) 5)) by (in_range).
  assert (H3 : overridden_syscall located_state 5 = 0) by (reflexivity).
  assert (H4 : kernel_pointer (read_slot located_state 5)) by (in_range).
  split; [apply le_n|].
  split; [exact H0|].
  split; [exact H1|].
  split; [exact H2|].
  split; [exact H3|].
  split; [exact H4|].
  exact (syscall_override_restore_round_trip 3 (le_n 3) demo_kernel 5 0xffffffffa0002000 None located_state H0 H1 H2 H3 H4).
Defined.

Lemma registry_records_are_permanent_witness :
  ((3 <= 3)%nat) /\
  (syscall_table_ptr overridden_once_state <> 0) /\
  (5 <= __NR_syscall_max demo_kernel) /\
  (patchable (slot_addr (syscall_table_ptr overridden_once_state) 5)) /\
  (exists r st1 out st2,
   override_syscall demo_kernel 3 5 0xffffffffa0003000 None overridden_once_state = Some (0, r, st1) /\
   restore_syscall demo_kernel 3 5 overridden_once_state = Some (out, st2) /\
   (forall m, overridden_syscall overridden_once_state m <> 0 ->
   overridden_syscall st1 m = overridden_syscall overridden_once_state m) /\
   (forall m, m <> 5 -> overridden_syscall st1 m = overridden_syscall overridden_once_state m) /\
   overridden_syscall st2 = overridden_syscall overridden_once_state).
Proof.
  assert (H0 : syscall_table_ptr overridden_once_state <> 0) by (vm_compute; discriminate).
  assert (H1 : 5 <= __NR_syscall_max demo_kernel) by (vm_compute; discriminate).
  assert (H2 : patchable (slot_addr (syscall_table_ptr overridden_once_state) 5)) by (in_range).
  split; [apply le_n|].
  split; [exact H0|].
  split; [exact H1|].
  split; [exact H2|].
  exact (registry_records_are_permanent 3 (le_n 3) demo_kernel 5 0xffffffffa0003000 None overridden_once_state H0 H1 H2).
Defined.

Lemma override_syscall_writes_one_slot_witness :
  ((3 <= 3)%nat) /\
  (syscall_table_ptr located_state <> 0) /\
  (5 <= __NR_syscall_max demo_kernel) /\
  (patchable (slot_addr (syscall_table_ptr located_state) 5)) /\
  (exists r st',
   override_syscall demo_kernel 3 5 0xffffffffa0002000 None located_state = Some (0, r, st') /\
   stores st' = (slot_addr (syscall_table_ptr located_state) 5, 8%nat) :: stores located_state /\
   (forall x, x < slot_addr (syscall_table_ptr located_state) 5 \/
   slot_addr (syscall_table_ptr located_state) 5 + PTR_SIZE <= x ->
   mem st' x = mem located_state x) /\
   syscall_table_ptr st' = syscall_table_ptr located_state /\
   page_writable (pgtable st') (slot_addr (syscall_table_ptr located_state) 5) = false).
Proof.
  assert (H0 : syscall_table_ptr located_state <> 0) by (vm_compute; discriminate).
  assert (H1 : 5 <= __NR_syscall_max demo_kernel) by (vm_compute; discriminate).
  assert (H2 : patchable (slot_addr (syscall_table_ptr located_state) 5)) by (in_range).
  split; [apply le_n|].
  split; [exact H0|].
  split; [exact H1|].
  split; [exact H2|].
  exact (override_syscall_writes_one_slot 3 (le_n 3) demo_kernel 5 0xffffffffa0002000 None located_state H0 H1 H2).
Defined.

Lemma override_leaves_other_numbers_witness :
  ((3 <= 3)%nat) /\
  (syscall_table_ptr located_state <> 0) /\
  (0 <= 5 <= __NR_syscall_max demo_kernel) /\
  (0 <= 6) /\
  (6 <> 5) /\
  (0 <= syscall_table_ptr located_state) /\
  (syscall_table_ptr located_state + PTR_SIZE * (5 + 1) <= 2 ^ 64) /\
  (syscall_table_ptr located_state + PTR_SIZE * (6 + 1) <= 2 ^ 64) /\
  (patchable (slot_addr (syscall_table_ptr located_state) 5)) /\
  (exists r st',
   override_syscall demo_kernel 3 5 0xffffffffa0002000 None located_state = Some (0, r, st') /\
   read_slot st' 6 = read_slot located_state 6 /\
   overridden_syscall st' 6 = overridden_syscall located_state 6).
Proof.
  assert (H0 : syscall_table_ptr located_state <> 0) by (vm_compute; discriminate).
  assert (H1 : 0 <= 5 <= __NR_syscall_max demo_kernel) by (vm_compute; split; discriminate).
  assert (H2 : 0 <= 6) by (vm_compute; discriminate).
  assert (H3 : 6 <> 5) by (discriminate).
  assert (H4 : 0 <= syscall_table_ptr located_state) by (vm_compute; discriminate).
  assert (H5 : syscall_table_ptr located_state + PTR_SIZE * (5 + 1) <= 2 ^ 64) by (vm_compute; discriminate).
  assert (H6 : syscall_table_ptr located_state + PTR_SIZE * (6 + 1) <= 2 ^ 64) by (vm_compute; discriminate).
  assert (H7 : patchable (slot_addr (syscall_table_ptr located_state) 5)) by (in_range).
  split; [apply le_n|].
  split; [exact H0|].
  split; [exact H1|].
  split; [exact H2|].
  split; [exact H3|].
  split; [exact H4|].
  split; [exact H5|].
  split; [exact H6|].
  split; [exact H7|].
  exact (override_leaves_other_numbers 3 (le_n 3) demo_kernel 5 6 0xffffffffa0002000 None located_state H0 H1 H2 H3 H4 H5 H6 H7).
Defined.

Lemma override_syscall_locates_on_demand_witness :
  ((3 <= 3)%nat) /\
  (syscall_table_ptr boot_state = 0) /\
  (kallsyms_lookup_name demo_kernel "sys_call_table" <> 0) /\
  (5 <= __NR_syscall_max demo_kernel) /\
  (patchable (slot_addr (kallsyms_lookup_name demo_kernel "sys_call_table") 5)) /\
  (exists r st',
   override_syscall demo_kernel 3 5 0xffffffffa0002000 None boot_state = Some (0, r, st') /\
   syscall_table_ptr st' = kallsyms_lookup_name demo_kernel "sys_call_table" /\
   read_slot st' 5 = wrap64 0xffffffffa0002000 /\
   restore_syscall demo_kernel 3 5 boot_state = Some (- EFAULT, boot_state)).
Proof.
  assert (H0 : (3 <= 3)%nat) by (apply le_n).
  assert (H1 : syscall_table_ptr boot_state = 0) by (reflexivity).
  assert (H2 : kallsyms_lookup_name demo_kernel "sys_call_table" <> 0) by (vm_compute; discriminate).
  assert (H3 : 5 <= __NR_syscall_max demo_kernel) by (vm_compute; discriminate).
  assert (H4 : patchable (slot_addr (kallsyms_lookup_name demo_kernel "sys_call_table") 5)) by (in_range).
  split; [exact H0|].
  split; [exact H1|].
  split; [exact H2|].
  split; [exact H3|].
  split; [exact H4|].
  exact (override_syscall_locates_on_demand demo_kernel 3%nat 5 0xffffffffa0002000 None boot_state H0 H1 H2 H3 H4).
Defined.

Lemma override_fails_without_probes_witness :
  (syscall_table_ptr boot_state = 0) /\
  (kallsyms_lookup_name bare_kernel "sys_call_table" = 0) /\
  (kallsyms_lookup_name bare_kernel "sys_close" = 0 \/
   kallsyms_lookup_name bare_kernel "sys_open" = 0 \/
   kallsyms_lookup_name bare_kernel "sys_read" = 0 \/
   kallsyms_lookup_name bare_kernel "sys_write" = 0) /\
  (exists st',
   find_sys_call_table bare_kernel 0 boot_state = Some (- EFAULT, st') /\
   override_syscall bare_kernel 0 5 0xffffffffa0002000 None boot_state = Some (- EFAULT, None, st') /\
   syscall_table_ptr st' = 0 /\ mem st' = mem boot_state /\
   pgtable st' = pgtable boot_state /\
   overridden_syscall st' = overridden_syscall boot_state /\
   stores st' = stores boot_state).
Proof.
  assert (H0 : syscall_table_ptr boot_state = 0) by (reflexivity).
  assert (H1 : kallsyms_lookup_name bare_kernel "sys_call_table" = 0) by (reflexivity).
  assert (H2 : kallsyms_lookup_name bare_kernel "sys_close" = 0 \/
    kallsyms_lookup_name bare_kernel "sys_open" = 0 \/
    kallsyms_lookup_name bare_kernel "sys_read" = 0 \/
    kallsyms_lookup_name bare_kernel "sys_write" = 0) by (left; reflexivity).
  split; [exact H0|].
  split; [exact H1|].
  split; [exact H2|].
  exact (override_fails_without_probes bare_kernel 0%nat 5 0xffffffffa0002000 None boot_state H0 H1 H2).
Defined.

Lemma dump_around_window_witness :
  (syscall_table_ptr located_state <> 0) /\
  (0 <= 100 < 2 ^ 32) /\
  (__NR_syscall_max demo_kernel < 2 ^ 32) /\
  (dump_around demo_kernel located_state 100 =
   (if (100 <? 5) || (__NR_syscall_max demo_kernel <? 100 + 5) then []
   else map (fun d => (100 - 5 + Z.of_nat d, read_slot located_state (100 - 5 + Z.of_nat d)))
   (seq 0 10)) /\
   forall i v, In (i, v) (dump_around demo_kernel located_state 100) ->
   0 <= i < __NR_syscall_max demo_kernel /\ 100 - 5 <= i < 100 + 5 /\ v = read_slot located_state i).
Proof.
  assert (H0 : syscall_table_ptr located_state <> 0) by (vm_compute; discriminate).
  assert (H1 : 0 <= 100 < 2 ^ 32) by (vm_compute; split; [discriminate | reflexivity]).
  assert (H2 : __NR_syscall_max demo_kernel < 2 ^ 32) by (reflexivity).
  split; [exact H0|].
  split; [exact H1|].
  split; [exact H2|].
  exact (dump_around_window demo_kernel located_state 100 H0 H1 H2).
Defined.

Lemma protection_never_returns_on_last_page_witness :
  (2 ^ 64 - PAGE_SIZE <= 0xfffffffffffff000 < 2 ^ 64) /\
  (org_sym_ptr last_page_inst = 0xfffffffffffff000) /\
  (installed last_page_inst = false) /\
  (mem_protected last_page_inst = true) /\
  (set_mem_rw 7 0xfffffffffffff000 12 boot_state = None /\
   set_mem_ro 7 0xfffffffffffff000 12 boot_state = None /\
   __enable_symbol_override 7 last_page_inst boot_state = None).
Proof.
  assert (H0 : 2 ^ 64 - PAGE_SIZE <= 0xfffffffffffff000 < 2 ^ 64) by (vm_compute; split; [discriminate | reflexivity]).
  assert (H1 : org_sym_ptr last_page_inst = 0xfffffffffffff000) by (reflexivity).
  assert (H2 : installed last_page_inst = false) by (reflexivity).
  assert (H3 : mem_protected last_page_inst = true) by (reflexivity).
  split; [exact H0|].
  split; [exact H1|].
  split; [exact H2|].
  split; [exact H3|].
  exact (protection_never_returns_on_last_page 7%nat 0xfffffffffffff000 12 last_page_inst boot_state H0 H1 H2 H3).
Defined.

Lemma locator_scan_returns_first_match_witness :
  kallsyms_lookup_name scan_kernel "sys_call_table" = 0 /\
  scan_start (kallsyms_lookup_name scan_kernel "sys_close")
             (kallsyms_lookup_name scan_kernel "sys_open")
             (kallsyms_lookup_name scan_kernel "sys_read")
             (kallsyms_lookup_name scan_kernel "sys_write")
    = 0xffffffff810c18b0 /\
  exists st',
    find_sys_call_table scan_kernel 4 scan_state = Some (0, st') /\
    syscall_table_ptr st' = 0xffffffff810c18b0 + PTR_SIZE * Z.of_nat 3 /\
    mem st' = mem scan_state /\ pgtable st' = pgtable scan_state /\
    overridden_syscall st' = overridden_syscall scan_state /\
    stores st' = stores scan_state.
Proof.
  split; [reflexivity|]. split; [reflexivity|].
  refine (locator_scan_returns_first_match scan_kernel scan_state 3 0
            eq_refl _ _ _ _ _ _ _).
  - in_range.
  - in_range.
  - in_range.
  - in_range.
  - vm_compute. reflexivity.
  - intros t Ht. destruct t as [|[|[|t]]];
      [vm_compute; reflexivity | vm_compute; reflexivity
      | vm_compute; reflexivity | exfalso; lia].
  - vm_compute. reflexivity.
Defined.

Lemma locator_gives_up_on_residue_7_witness :
  kallsyms_lookup_name odd_kernel "sys_call_table" = 0 /\
  scan_start (kallsyms_lookup_name odd_kernel "sys_close")
             (kallsyms_lookup_name odd_kernel "sys_open")
             (kallsyms_lookup_name odd_kernel "sys_read")
             (kallsyms_lookup_name odd_kernel "sys_write") mod PTR_SIZE = 7 /\
  exists fuel,
    find_sys_call_table odd_kernel fuel blank_state =
      Some (- EFAULT, set_syscall_table_ptr blank_state 0).
Proof.
  split; [reflexivity|]. split; [reflexivity|].
  refine (locator_gives_up_on_residue_7 odd_kernel blank_state
            eq_refl _ _ _ _ eq_refl _).
  - in_range.
  - in_range.
  - in_range.
  - in_range.
  - intros j. reflexivity.
Defined.
